(** * GNRE need evaluation and XML builders (gnre_automacao/gnre_xml.py)

    A shallow embedding of the module's functions and the properties
    its tests and documentation rely on.

    Conventions of the embedding.
    - A Python [str] is a [string]; the characters are ASCII, so
      [str.isdigit], [str.strip] and [str.upper] are the ASCII
      restrictions of the Unicode ones.
    - [Optional[str]] is [option string]; a dict of invoice fields
      ([Dict[str, Optional[str]]]) is a [gmap string (option string)].
    - [decimal.Decimal] is the type [Decimal] below, with the default
      context (28 digits, ROUND_HALF_EVEN, Emax 999999, traps on
      InvalidOperation and Overflow).  The platform limits of the exact
      constructor (exponents beyond 10^18) are not modelled.
    - An exception is a value of [exn]; a function that can raise
      returns a [result].
    - The wall clock read by [datetime.now()] and the library parser
      [datetime.fromisoformat] are parameters of the submission-guide
      builder. *)

From Stdlib Require Import ZArith String Ascii List Bool Lia.
From Stdlib Require Import DecimalString.
From stdpp Require Import base gmap strings list.

Open Scope string_scope.
Open Scope Z_scope.

(** ** Exceptions *)

Inductive exn : Type :=
| ValueError (msg : string)
| InvalidOperation
| Overflow.

Inductive result (A : Type) : Type :=
| Ok (a : A)
| Raise (e : exn).

Arguments Ok {A} a.
Arguments Raise {A} e.

Definition bind {A B : Type} (m : result A) (k : A -> result B) : result B :=
  match m with
  | Ok a => k a
  | Raise e => Raise e
  end.

Notation "'let*' x ':=' m 'in' k" := (bind m (fun x => k))
  (at level 10, x name, m at level 100, k at level 200).
Notation "'check' m 'in' k" := (bind m (fun _ : unit => k))
  (at level 10, m at level 100, k at level 200).

(** [_require(cond, msg)] *)
Definition _require (cond : bool) (msg : string) : result unit :=
  if cond then Ok tt else Raise (ValueError msg).

(** ** Strings *)

Module Str.

Definition code (c : ascii) : N := N_of_ascii c.

Definition between (lo hi : N) (c : ascii) : bool :=
  (lo <=? code c)%N && (code c <=? hi)%N.

(** [ch.isdigit()] on an ASCII character *)
Definition chr_isdigit (c : ascii) : bool := between 48 57 c.

(** [ch.isspace()] on an ASCII character: TAB..CR, FS..US and SPACE *)
Definition chr_isspace (c : ascii) : bool := between 9 13 c || between 28 32 c.

Definition chr_upper (c : ascii) : ascii :=
  if between 97 122 c then ascii_of_N (code c - 32) else c.

Definition chr_lower (c : ascii) : ascii :=
  if between 65 90 c then ascii_of_N (code c + 32) else c.

Fixpoint all (p : ascii -> bool) (s : string) : bool :=
  match s with
  | EmptyString => true
  | String c r => p c && all p r
  end.

Fixpoint filter (p : ascii -> bool) (s : string) : string :=
  match s with
  | EmptyString => EmptyString
  | String c r => if p c then String c (filter p r) else filter p r
  end.

Fixpoint map (f : ascii -> ascii) (s : string) : string :=
  match s with
  | EmptyString => EmptyString
  | String c r => String (f c) (map f r)
  end.

Definition is_empty (s : string) : bool :=
  match s with EmptyString => true | _ => false end.

(** [bool(s)] *)
Definition truthy (s : string) : bool := negb (is_empty s).

(** [len(s)] *)
Definition len (s : string) : Z := Z.of_nat (String.length s).

(** [s.isdigit()]: false on the empty string *)
Definition isdigit (s : string) : bool := truthy s && all chr_isdigit s.

Definition upper (s : string) : string := map chr_upper s.
Definition lower (s : string) : string := map chr_lower s.

Fixpoint lstrip (s : string) : string :=
  match s with
  | EmptyString => EmptyString
  | String c r => if chr_isspace c then lstrip r else s
  end.

Fixpoint rstrip (s : string) : string :=
  match s with
  | EmptyString => EmptyString
  | String c r =>
      let r' := rstrip r in
      if chr_isspace c && is_empty r' then EmptyString else String c r'
  end.

(** [s.strip()] *)
Definition strip (s : string) : string := rstrip (lstrip s).

(** [s[i:j]] for constant [0 <= i <= j] *)
Definition slice (i j : nat) (s : string) : string := substring i (j - i) s.

(** [s[-n:]] for a constant [n > 0] *)
Definition last (n : nat) (s : string) : string :=
  substring (String.length s - n) n s.

(** [s.replace(c, t)] for a one-character pattern *)
Fixpoint replace_chr (c : ascii) (t : string) (s : string) : string :=
  match s with
  | EmptyString => EmptyString
  | String a r =>
      if Ascii.eqb a c then t ++ replace_chr c t r else String a (replace_chr c t r)
  end.

(** [str(n)] for a natural number *)
Definition of_N (n : N) : string := NilZero.string_of_uint (N.to_uint n).
Definition of_Z (z : Z) : string := of_N (Z.to_N z).

(** [int(s)] for a string of ASCII digits ([int("")] is taken as 0) *)
Definition to_Z (s : string) : Z :=
  (fix go (acc : Z) (s : string) : Z :=
     match s with
     | EmptyString => acc
     | String c r => go (10 * acc + Z.of_N (code c - 48)) r
     end) 0 s.

(** ["%0*d" % (w, n)] *)
Definition zfill (w : nat) (s : string) : string :=
  string_of_list_ascii (repeat "0"%char (w - String.length s)) ++ s.

(** longest prefix of digits, and the rest *)
Fixpoint span_digits (s : string) : string * string :=
  match s with
  | EmptyString => (EmptyString, EmptyString)
  | String c r =>
      if chr_isdigit c then let '(d, t) := span_digits r in (String c d, t)
      else (EmptyString, s)
  end.

End Str.

(** [_digits(s)] on a string *)
Definition digits_of (s : string) : string := Str.filter Str.chr_isdigit s.

(** ** Optional strings *)

(** truth value of an [Optional[str]] *)
Definition truthy (o : option string) : bool :=
  match o with
  | Some s => Str.truthy s
  | None => false
  end.

(** [a or b] on [Optional[str]] *)
Definition por (a b : option string) : option string := if truthy a then a else b.

(** [o or ""] *)
Definition or_empty (o : option string) : string :=
  match o with
  | Some s => s
  | None => ""
  end.

(** [d.get(k)] *)
Definition get (d : gmap string (option string)) (k : string) : option string :=
  default None (d !! k).

(** [_digits] *)
Definition _digits (s : option string) : string := digits_of (or_empty s).

(** ** decimal.Decimal *)

Inductive Decimal : Type :=
| Finite (sign : bool) (coef : Z) (exp : Z)      (* (-1)^sign * coef * 10^exp, coef >= 0 *)
| Infinity (sign : bool)
| NaN (signaling : bool) (sign : bool) (diag : Z).

Module Dec.

(** the default context *)
Definition prec : Z := 28.
Definition Emax : Z := 999999.
Definition Emin : Z := -999999.
Definition Etiny : Z := Emin - prec + 1.
Definition Etop : Z := Emax - prec + 1.

(** [Decimal("0")] and [Decimal("0.00")] *)
Definition zero : Decimal := Finite false 0 0.
Definition zero2 : Decimal := Finite false 0 (-2).

(** [len(str(c))] for a coefficient *)
Definition ndigits (c : Z) : Z := Str.len (Str.of_Z c).

(** [c / 10^k] rounded to nearest, ties to even (ROUND_HALF_EVEN) *)
Definition round_half_even (c k : Z) : Z :=
  let p := 10 ^ k in
  let q := c / p in
  let r := c mod p in
  if (2 * r >? p) || ((2 * r =? p) && Z.odd q) then q + 1 else q.

(** [Decimal._fix]: round a finite result to the context *)
Definition fix_ (s : bool) (c e : Z) : result Decimal :=
  if c =? 0 then Ok (Finite s 0 (Z.min (Z.max e Etiny) Emax))
  else
    let exp_min := ndigits c + e - prec in
    if exp_min >? Etop then Raise Overflow
    else
      let exp_min := Z.max exp_min Etiny in
      if e <? exp_min then
        let digits := ndigits c + e - exp_min in
        let '(c, e) := if digits <? 0 then (1, exp_min - 1) else (c, e) in
        let coeff := round_half_even c (exp_min - e) in
        let '(coeff, exp_min) :=
          if ndigits coeff >? prec then (coeff / 10, exp_min + 1) else (coeff, exp_min) in
        if exp_min >? Etop then Raise Overflow else Ok (Finite s coeff exp_min)
      else Ok (Finite s c e).

(** [_normalize(op1, op2, prec)]: align two non-zero operands; an
    operand too small to matter is replaced by a sticky 1 *)
Definition normalize (c1 e1 c2 e2 : Z) : (Z * Z) * Z :=
  let '(tc, te, oc, oe) := if e1 <? e2 then (c2, e2, c1, e1) else (c1, e1, c2, e2) in
  let exp := te + Z.min (-1) (ndigits tc - prec - 2) in
  let '(oc, oe) := if ndigits oc + oe - 1 <? exp then (1, exp) else (oc, oe) in
  let tc := tc * 10 ^ (te - oe) in
  if e1 <? e2 then (oc, tc, oe) else (tc, oc, oe).

Definition signed (s : bool) (c : Z) : Z := if s then - c else c.

(** [Decimal.__add__] *)
Definition add (a b : Decimal) : result Decimal :=
  match a, b with
  | NaN true _ _, _ => Raise InvalidOperation
  | _, NaN true _ _ => Raise InvalidOperation
  | NaN false s d, _ => Ok (NaN false s (d mod 10 ^ prec))
  | _, NaN false s d => Ok (NaN false s (d mod 10 ^ prec))
  | Infinity s1, Infinity s2 =>
      if Bool.eqb s1 s2 then Ok (Infinity s1) else Raise InvalidOperation
  | Infinity s1, _ => Ok (Infinity s1)
  | _, Infinity s2 => Ok (Infinity s2)
  | Finite s1 c1 e1, Finite s2 c2 e2 =>
      let exp := Z.min e1 e2 in
      if (c1 =? 0) && (c2 =? 0) then fix_ (s1 && s2) 0 exp
      else if c1 =? 0 then
        let exp := Z.max exp (e2 - prec - 1) in
        fix_ s2 (c2 * 10 ^ (e2 - exp)) exp
      else if c2 =? 0 then
        let exp := Z.max exp (e1 - prec - 1) in
        fix_ s1 (c1 * 10 ^ (e1 - exp)) exp
      else
        let '(n1, n2, ne) := normalize c1 e1 c2 e2 in
        let v := signed s1 n1 + signed s2 n2 in
        if v =? 0 then fix_ false 0 exp
        else fix_ (v <? 0) (Z.abs v) ne
  end.

(** [(-1) ** sign] as a comparison result *)
Definition sign_cmp (s : bool) : comparison := if s then Lt else Gt.

(** [Decimal.adjusted()] *)
Definition adjusted (c e : Z) : Z := e + ndigits c - 1.

(** [Decimal._cmp] on operands that are not NaN *)
Definition cmp (a b : Decimal) : comparison :=
  match a, b with
  | Finite s1 c1 e1, Finite s2 c2 e2 =>
      if c1 =? 0 then (if c2 =? 0 then Eq else CompOpp (sign_cmp s2))
      else if c2 =? 0 then sign_cmp s1
      else if s1 && negb s2 then Lt
      else if negb s1 && s2 then Gt
      else if adjusted c1 e1 =? adjusted c2 e2 then
        match Z.compare (c1 * 10 ^ Z.max 0 (e1 - e2)) (c2 * 10 ^ Z.max 0 (e2 - e1)) with
        | Eq => Eq
        | Lt => CompOpp (sign_cmp s1)
        | Gt => sign_cmp s1
        end
      else if adjusted c1 e1 >? adjusted c2 e2 then sign_cmp s1
      else CompOpp (sign_cmp s1)
  | Infinity s1, Infinity s2 => Z.compare (signed s1 1) (signed s2 1)
  | Infinity s1, _ => sign_cmp s1
  | _, Infinity s2 => CompOpp (sign_cmp s2)
  | _, _ => Eq
  end.

Definition is_nan (a : Decimal) : bool :=
  match a with NaN _ _ _ => true | _ => false end.

(** an ordering comparison signals InvalidOperation on a NaN *)
Definition compare_with (test : comparison -> bool) (a b : Decimal) : result bool :=
  if is_nan a || is_nan b then Raise InvalidOperation else Ok (test (cmp a b)).

(** [a > b] and [a >= b] *)
Definition gt : Decimal -> Decimal -> result bool :=
  compare_with (fun c => match c with Gt => true | _ => false end).
Definition ge : Decimal -> Decimal -> result bool :=
  compare_with (fun c => match c with Lt => false | _ => true end).

(** [Decimal._rescale(-2, ROUND_HALF_EVEN)] on a finite value *)
Definition rescale2 (c e : Z) : Z :=
  if c =? 0 then 0
  else if e >=? -2 then c * 10 ^ (e + 2)
  else round_half_even c (-2 - e).

Definition sign_str (s : bool) : string := if s then "-" else "".

(** [format(d, ".2f")] *)
Definition fmt2 (d : Decimal) : string :=
  match d with
  | Finite s c e =>
      let c' := rescale2 c e in
      sign_str s ++ Str.of_Z (c' / 100) ++ "." ++ Str.zfill 2 (Str.of_Z (c' mod 100))
  | Infinity s => sign_str s ++ "Infinity"
  | NaN sig s d =>
      sign_str s ++ (if sig then "sNaN" else "NaN") ++ (if d =? 0 then "" else Str.of_Z d)
  end.

(** an optional sign, then the rest *)
Definition split_sign (s : string) : bool * string :=
  match s with
  | String "-" r => (true, r)
  | String "+" r => (false, r)
  | _ => (false, s)
  end.

(** the exponent part, already without its letter E: an optional
    sign and at least one digit *)
Definition parse_exp (s : string) : option Z :=
  let '(sg, ds) := split_sign s in
  if Str.isdigit ds then Some (signed sg (Str.to_Z ds)) else None.

(** the numeric alternative of the grammar: integer digits, an
    optional point with fraction digits, an optional exponent, and at
    least one digit before the exponent *)
Definition parse_number (sg : bool) (body : string) : option Decimal :=
  let '(ip, r1) := Str.span_digits body in
  let '(fp, r2) :=
    match r1 with
    | String "." r => Str.span_digits r
    | _ => (EmptyString, r1)
    end in
  if Str.is_empty ip && Str.is_empty fp then None
  else
    let coef := Str.to_Z (ip ++ fp) in
    let scale := Str.len fp in
    match r2 with
    | EmptyString => Some (Finite sg coef (- scale))
    | String c r3 =>
        if Ascii.eqb (Str.chr_lower c) "e" then
          match parse_exp r3 with
          | Some e => Some (Finite sg coef (e - scale))
          | None => None
          end
        else None
    end.

(** the diagnostic digits after [NaN] *)
Definition parse_diag (s : string) : option Z :=
  if Str.is_empty s then Some 0
  else if Str.isdigit s then Some (Str.to_Z s) else None.

(** [Decimal(s)]: [None] when the constructor raises InvalidOperation *)
Definition of_string (value : string) : option Decimal :=
  let s := Str.filter (fun c => negb (Ascii.eqb c "_")) (Str.strip value) in
  let '(sg, body) := split_sign s in
  let lb := Str.lower body in
  if String.eqb lb "inf" || String.eqb lb "infinity" then Some (Infinity sg)
  else if String.prefix "nan" lb then
    option_map (NaN false sg) (parse_diag (substring 3 (String.length lb) lb))
  else if String.prefix "snan" lb then
    option_map (NaN true sg) (parse_diag (substring 4 (String.length lb) lb))
  else parse_number sg body.

End Dec.

(** [_dec] *)
Definition _dec (value : option string) : Decimal :=
  if negb (truthy value) then Dec.zero
  else
    match Dec.of_string (or_empty value) with
    | Some d => d
    | None => Dec.zero
    end.

(** the sign test behind [d > Decimal("0")]: a non-zero coefficient
    with a positive sign, or plus infinity *)
Definition is_positive (d : Decimal) : bool :=
  match d with
  | Finite s c _ => negb s && negb (c =? 0)
  | Infinity s => negb s
  | NaN _ _ _ => false
  end.

(** the sign test behind [d >= Decimal("0.00")] failing *)
Definition is_negative (d : Decimal) : bool :=
  match d with
  | Finite s c _ => s && negb (c =? 0)
  | Infinity s => s
  | NaN _ _ _ => false
  end.

Definition is_zero (d : Decimal) : bool :=
  match d with
  | Finite _ c _ => c =? 0
  | _ => false
  end.

(** ** Dates *)

Record date : Type := Date { year : Z; month : Z; day : Z }.

(** [date.isoformat()]: ["%04d-%02d-%02d"] *)
Definition isoformat (d : date) : string :=
  Str.zfill 4 (Str.of_Z (year d)) ++ "-" ++ Str.zfill 2 (Str.of_Z (month d))
    ++ "-" ++ Str.zfill 2 (Str.of_Z (day d)).

(** ** xml.etree.ElementTree *)

#[local] Unset Elimination Schemes.
Inductive Element : Type :=
| Elem (tag : string) (attrib : list (string * string)) (text : option string)
       (children : list Element).
#[local] Set Elimination Schemes.

Definition GNRE_NS : string := "http://www.gnre.pe.gov.br".

Module ET.

Definition tag (e : Element) : string := match e with Elem t _ _ _ => t end.
Definition attrib (e : Element) : list (string * string) :=
  match e with Elem _ a _ _ => a end.
Definition text (e : Element) : option string := match e with Elem _ _ t _ => t end.
Definition children (e : Element) : list Element := match e with Elem _ _ _ c => c end.

(** the f-string [{GNRE_NS}name] *)
Definition ns (name : string) : string := "{" ++ GNRE_NS ++ "}" ++ name.

(** an element without children, as left by [SubElement] and an
    assignment to [.text] *)
Definition leaf (name : string) (a : list (string * string)) (t : option string) : Element :=
  Elem (ns name) a t [].

(** an element that only receives children *)
Definition node (name : string) (a : list (string * string)) (c : list Element) : Element :=
  Elem (ns name) a None c.

(** [e.get(k)] *)
Fixpoint attr (k : string) (a : list (string * string)) : option string :=
  match a with
  | [] => None
  | (k', v) :: r => if String.eqb k k' then Some v else attr k r
  end.

(** [e.iter()]: the element and its descendants, in document order *)
Fixpoint iter (e : Element) : list Element :=
  match e with
  | Elem _ _ _ cs =>
      e :: (fix go (l : list Element) : list Element :=
              match l with
              | [] => []
              | c :: r => (iter c ++ go r)%list
              end) cs
  end.

Definition dquote : string := String "034"%char EmptyString.

Definition escape_with (f : ascii -> option string) (s : string) : string :=
  (fix go (s : string) : string :=
     match s with
     | EmptyString => EmptyString
     | String c r =>
         match f c with
         | Some t => t ++ go r
         | None => String c (go r)
         end
     end) s.

(** [_escape_cdata] *)
Definition escape_cdata : string -> string :=
  escape_with (fun c =>
    if Ascii.eqb c "&" then Some "&amp;"
    else if Ascii.eqb c "<" then Some "&lt;"
    else if Ascii.eqb c ">" then Some "&gt;"
    else None).

(** [_escape_attrib] *)
Definition escape_attrib : string -> string :=
  escape_with (fun c =>
    if Ascii.eqb c "&" then Some "&amp;"
    else if Ascii.eqb c "<" then Some "&lt;"
    else if Ascii.eqb c ">" then Some "&gt;"
    else if Ascii.eqb c "034" then Some "&quot;"
    else if Ascii.eqb c "013" then Some "&#13;"
    else if Ascii.eqb c "010" then Some "&#10;"
    else if Ascii.eqb c "009" then Some "&#09;"
    else None).

(** the name written for a tag of the registered default namespace *)
Definition qname (t : string) : string :=
  let p := "{" ++ GNRE_NS ++ "}" in
  if String.prefix p t then substring (String.length p) (String.length t) t else t.

Definition write_attrib (a : list (string * string)) : string :=
  String.concat "" (List.map (fun kv => " " ++ fst kv ++ "=" ++ dquote
                                   ++ escape_attrib (snd kv) ++ dquote) a).

(** [_serialize_xml]; [xmlns] is the namespace declaration, written
    on the root only *)
Fixpoint serialize (xmlns : string) (e : Element) : string :=
  match e with
  | Elem t a txt cs =>
      let body :=
        (fix go (l : list Element) : string :=
           match l with
           | [] => EmptyString
           | c :: r => serialize "" c ++ go r
           end) cs in
      "<" ++ qname t ++ xmlns ++ write_attrib a ++
      (if truthy txt || negb (bool_decide (cs = []))
       then ">" ++ escape_cdata (or_empty txt) ++ body ++ "</" ++ qname t ++ ">"
       else " />")
  end.

(** [ET.tostring(e, encoding="utf-8", xml_declaration=False).decode("utf-8")]
    for a tree whose tags are all in the namespace [GNRE_NS], registered
    with the empty prefix *)
Definition tostring (e : Element) : string :=
  serialize (" xmlns=" ++ dquote ++ escape_attrib GNRE_NS ++ dquote) e.

End ET.

(** ** [_mun5] *)

Definition _mun5 (cmun : option string) : option string :=
  if negb (truthy cmun) then None
  else
    let s := _digits cmun in
    if Str.len s =? 7 then Some (Str.slice 2 7 s)
    else if Str.len s =? 5 then Some s
    else if Str.len s >? 5 then Some (Str.last 5 s)
    else None.

(** ** [evaluate_gnre_need] *)

(** [r.isdigit() and len(r) == 6] *)
Definition is_code6 (r : string) : bool := Str.isdigit r && (Str.len r =? 6).

(** the returned dict, one field per key *)
Module Need.
Record t : Type := Make
  { receita : option string;
    valor_principal : string;
    valor_fcp : string;
    valor_total_item : string;
    necessario : string }.
End Need.

(** the values computed before the manual-handling test *)
Record need_values : Type :=
  { nv_r : string;
    nv_vprincipal : Decimal;
    nv_vFCP_total : Decimal;
    nv_v_total_item : Decimal }.

Definition uf_dest_of (dados_nfe : gmap string (option string)) : string :=
  Str.upper (Str.strip (or_empty (get dados_nfe "uf_destinatario"))).

Definition uf_emit_of (dados_nfe : gmap string (option string)) : string :=
  Str.upper (Str.strip (or_empty (get dados_nfe "uf_emitente"))).

(** the revenue code in [r] after the first conditional *)
Definition resolve_receita (receita : option string) (vICMSUF_nfe vST_nfe : Decimal)
  : result string :=
  let r := or_empty receita in
  if negb (is_code6 r) then
    let* difal := Dec.gt vICMSUF_nfe Dec.zero in
    if difal then Ok "100102"
    else
      let* st := Dec.gt vST_nfe Dec.zero in
      if st then Ok "100099" else Ok r
  else Ok r.

(** the principal selected by the override or by the revenue code *)
Definition select_principal (r : string) (valor_principal : option string)
    (vST_nfe vICMSUF_nfe : Decimal) : result Decimal :=
  match valor_principal with
  | Some _ => Ok (_dec valor_principal)
  | None =>
      if String.eqb r "100102" then Ok vICMSUF_nfe
      else if String.eqb r "100099" || String.eqb r "100048" then Ok vST_nfe
      else Dec.add vST_nfe vICMSUF_nfe
  end.

Definition need_values_of (dados_nfe : gmap string (option string))
    (receita valor_principal : option string) : result need_values :=
  let vST_nfe := _dec (get dados_nfe "valor_vST") in
  let vICMSUF_nfe := _dec (get dados_nfe "valor_vICMSUFDest") in
  let vFCPUF_nfe := _dec (get dados_nfe "valor_vFCPUFDest") in
  let vFCPST_nfe := _dec (get dados_nfe "valor_vFCPST") in
  let* r := resolve_receita receita vICMSUF_nfe vST_nfe in
  let* vprincipal := select_principal r valor_principal vST_nfe vICMSUF_nfe in
  let* vFCP_total := Dec.add vFCPUF_nfe vFCPST_nfe in
  let* v_total_item := Dec.add vprincipal vFCP_total in
  Ok {| nv_r := r; nv_vprincipal := vprincipal;
        nv_vFCP_total := vFCP_total; nv_v_total_item := v_total_item |}.

(** [uf_dest in {"SP", "ES"}] *)
Definition in_SP_ES (uf : string) : bool := String.eqb uf "SP" || String.eqb uf "ES".

(** the truth value of [manual]; the comparison is evaluated only when
    the three tests before it hold *)
Definition manual_of (uf_dest uf_emit : string) (v_total_item : Decimal) : result bool :=
  if in_SP_ES uf_dest && Str.truthy uf_emit && negb (String.eqb uf_emit uf_dest)
  then Dec.gt v_total_item Dec.zero
  else Ok false.

Definition evaluate_gnre_need (dados_nfe : gmap string (option string))
    (receita valor_principal : option string) : result Need.t :=
  let uf_dest := uf_dest_of dados_nfe in
  let uf_emit := uf_emit_of dados_nfe in
  let* v := need_values_of dados_nfe receita valor_principal in
  let* manual := manual_of uf_dest uf_emit (nv_v_total_item v) in
  let* necessario :=
    if manual then Ok "M"
    else
      let* needed := Dec.gt (nv_v_total_item v) Dec.zero in
      Ok (if needed then "S" else "N") in
  Ok {| Need.receita :=
          if manual then None
          else if Str.truthy (nv_r v) then Some (nv_r v) else None;
        Need.valor_principal := Dec.fmt2 (nv_vprincipal v);
        Need.valor_fcp := Dec.fmt2 (nv_vFCP_total v);
        Need.valor_total_item := Dec.fmt2 (nv_v_total_item v);
        Need.necessario := necessario |}.

(** ** [build_lote_xml] *)

(** the keyword arguments, with their defaults *)
Record lote_options : Type :=
  { detalhamento_receita : option string;
    produto : option string;
    doc_origem_tipo : option string;
    incluir_campo_107 : bool;
    valor_principal : option string;
    data_vencimento : option string;
    razao_social_emitente : option string;
    data_pagamento : option string }.

Definition default_options : lote_options :=
  {| detalhamento_receita := None; produto := None; doc_origem_tipo := None;
     incluir_campo_107 := true; valor_principal := None; data_vencimento := None;
     razao_social_emitente := None; data_pagamento := None |}.

(** the values fixed before the test on the principal *)
Record lote_values : Type :=
  { lv_uf : string;
    lv_receita : string;
    lv_chave : string;
    lv_vprincipal : Decimal;
    lv_vFCP_total : Decimal }.

(** the automatic mapping of the revenue code *)
Definition lote_receita (receita : string) (vICMSUF_nfe vST_nfe : Decimal) : result string :=
  if negb (Str.truthy receita && Str.isdigit receita && (Str.len receita =? 6)) then
    let* difal := Dec.gt vICMSUF_nfe Dec.zero in
    if difal then Ok "100102"
    else
      let* st := Dec.gt vST_nfe Dec.zero in
      if st then Ok "100099"
      else
        check _require false "receita deve ter 6 dígitos ou ser dedutível pelos valores da NF-e" in
        Ok receita
  else Ok receita.

(** the principal selected by the override or by the revenue code *)
Definition lote_principal (receita : string) (valor_principal : option string)
    (vST_nfe vICMSUF_nfe total_default : Decimal) : Decimal :=
  match valor_principal with
  | Some _ => _dec valor_principal
  | None =>
      if String.eqb receita "100102" then vICMSUF_nfe
      else if String.eqb receita "100099" then vST_nfe
      else if String.eqb receita "100048" then vST_nfe
      else total_default
  end.

Definition lote_values_of (dados_nfe : gmap string (option string))
    (uf_favorecida : option string) (receita : string) (o : lote_options)
  : result lote_values :=
  let uf := Str.strip (or_empty (por uf_favorecida (get dados_nfe "uf_destinatario"))) in
  check _require (Str.truthy uf) "ufFavorecida é obrigatória" in
  let vST_nfe := _dec (get dados_nfe "valor_vST") in
  let vICMSUF_nfe := _dec (get dados_nfe "valor_vICMSUFDest") in
  let* receita := lote_receita receita vICMSUF_nfe vST_nfe in
  check _require (Str.truthy receita && (Str.len receita =? 6) && Str.isdigit receita)
        "receita deve ter 6 dígitos" in
  let ident_ok := truthy (get dados_nfe "emitente_cnpj") || truthy (get dados_nfe "emitente_cpf") in
  check _require ident_ok "Emitente deve possuir CNPJ ou CPF" in
  let chave := Str.strip (or_empty (get dados_nfe "chave_nfe")) in
  check _require (Str.truthy chave && Str.isdigit chave
                  && (1 <=? Str.len chave) && (Str.len chave <=? 44))
        "documentoOrigem inválido" in
  let vFCPUF_nfe := _dec (get dados_nfe "valor_vFCPUFDest") in
  let vFCPST_nfe := _dec (get dados_nfe "valor_vFCPST") in
  let* total_default := Dec.add vST_nfe vICMSUF_nfe in
  let vprincipal :=
    lote_principal receita (valor_principal o) vST_nfe vICMSUF_nfe total_default in
  let* vFCP_total := Dec.add vFCPUF_nfe vFCPST_nfe in
  Ok {| lv_uf := uf; lv_receita := receita; lv_chave := chave;
        lv_vprincipal := vprincipal; lv_vFCP_total := vFCP_total |}.

(** the message of the test on the principal *)
Definition msg_principal : string := "valor principal inválido".

(** the test on the principal, which ends the validation *)
Definition lote_checked (dados_nfe : gmap string (option string))
    (uf_favorecida : option string) (receita : string) (o : lote_options)
  : result lote_values :=
  let* v := lote_values_of dados_nfe uf_favorecida receita o in
  let* nonneg := Dec.ge (lv_vprincipal v) Dec.zero2 in
  check _require nonneg msg_principal in
  Ok v.

(** a sub-element carrying an invoice field, created when the field is
    present and not empty *)
Definition field (dados_nfe : gmap string (option string)) (key name : string)
  : list Element :=
  if truthy (get dados_nfe key) then [ET.leaf name [] (get dados_nfe key)] else [].

(** a sub-element carrying an optional argument *)
Definition given (value : option string) (name : string) : list Element :=
  if truthy value then [ET.leaf name [] value] else [].

(** CNPJ if present, else CPF *)
Definition cnpj_or_cpf (dados_nfe : gmap string (option string)) (cnpj cpf : string)
  : list Element :=
  if truthy (get dados_nfe cnpj) then [ET.leaf "CNPJ" [] (get dados_nfe cnpj)]
  else field dados_nfe cpf "CPF".

(** a municipality sub-element, created when the field is present and
    not empty, with the normalized code as its text *)
Definition municipio (dados_nfe : gmap string (option string)) (key : string)
  : list Element :=
  if truthy (get dados_nfe key)
  then [ET.leaf "municipio" [] (_mun5 (get dados_nfe key))]
  else [].

Definition contribuinteEmitente (dados_nfe : gmap string (option string))
    (uf : string) (o : lote_options) : Element :=
  let ie :=
    if truthy (get dados_nfe "emitente_ie")
       && bool_decide (get dados_nfe "uf_emitente" = Some uf)
    then [ET.leaf "IE" [] (get dados_nfe "emitente_ie")] else [] in
  let razao :=
    if truthy (razao_social_emitente o)
    then [ET.leaf "razaoSocial" [] (razao_social_emitente o)]
    else field dados_nfe "emitente_nome" "razaoSocial" in
  ET.node "contribuinteEmitente" []
    ([ET.node "identificacao" []
        (cnpj_or_cpf dados_nfe "emitente_cnpj" "emitente_cpf" ++ ie)]
     ++ razao
     ++ field dados_nfe "emitente_endereco" "endereco"
     ++ municipio dados_nfe "emitente_cod_mun"
     ++ field dados_nfe "uf_emitente" "uf"
     ++ field dados_nfe "emitente_cep" "cep"
     ++ field dados_nfe "emitente_telefone" "telefone")%list.

Definition contribuinteDestinatario (dados_nfe : gmap string (option string))
  : list Element :=
  if truthy (get dados_nfe "destinatario_cnpj") || truthy (get dados_nfe "destinatario_cpf")
  then
    [ET.node "contribuinteDestinatario" []
       ([ET.node "identificacao" []
           (cnpj_or_cpf dados_nfe "destinatario_cnpj" "destinatario_cpf")]
        ++ field dados_nfe "destinatario_nome" "razaoSocial"
        ++ municipio dados_nfe "destinatario_cod_mun")%list]
  else [].

(** the extra field 107 *)
Definition camposExtras (o : lote_options) (chave : string) : list Element :=
  if incluir_campo_107 o && Str.truthy chave && (Str.len (digits_of chave) =? 44)
  then
    [ET.node "camposExtras" []
       [ET.node "campoExtra" []
          [ET.leaf "codigo" [] (Some "107");
           ET.leaf "valor" [] (Some (digits_of chave))]]]
  else [].

Section Clock.

(** [datetime.fromisoformat(s).date()], [None] when it raises *)
Variable fromisoformat : string -> option date.

(** [datetime.now().date()] *)
Variable today : date.

(** [_date_only] *)
Definition _date_only (iso : option string) : option string :=
  if negb (truthy iso) then None
  else
    match fromisoformat (Str.replace_chr "Z" "+00:00" (or_empty iso)) with
    | Some d => Some (isoformat d)
    | None => None
    end.

(** the due date: the argument, else the issue date, else the
    current date *)
Definition dtven_of (dados_nfe : gmap string (option string)) (o : lote_options) : string :=
  or_empty (por (data_vencimento o)
              (por (_date_only (get dados_nfe "data_emissao"))
                 (Some (isoformat today)))).

(** the element tree, given the total of the item and the outcome of
    the test on the FCP total *)
Definition lote_element (dados_nfe : gmap string (option string)) (o : lote_options)
    (v : lote_values) (v_total_item : Decimal) (has_fcp : bool) : Element :=
  let uf := lv_uf v in
  let receita := lv_receita v in
  let chave := lv_chave v in
  let vprincipal := lv_vprincipal v in
  let vFCP_total := lv_vFCP_total v in
  let dtven := dtven_of dados_nfe o in
  let mes := Str.slice 5 7 dtven in
  let ano := Str.slice 0 4 dtven in
  let doc_tipo := Str.strip (or_empty (por (doc_origem_tipo o) (Some "10"))) in
  let valor_fcp :=
    if has_fcp then [ET.leaf "valor" [("tipo", "27")] (Some (Dec.fmt2 vFCP_total))]
    else [] in
  let item :=
    ET.node "item" []
      ([ET.leaf "receita" [] (Some receita)]
       ++ given (detalhamento_receita o) "detalhamentoReceita"
       ++ given (produto o) "produto"
       ++ [ET.leaf "documentoOrigem" [("tipo", doc_tipo)]
             (Some (_digits (por (get dados_nfe "numero_nf") (Some chave))));
           ET.node "referencia" []
             [ET.leaf "periodo" [] (Some "0");
              ET.leaf "mes" [] (Some mes);
              ET.leaf "ano" [] (Some ano)];
           ET.leaf "dataVencimento" [] (Some dtven);
           ET.leaf "valor" [("tipo", "11")] (Some (Dec.fmt2 vprincipal));
           ET.leaf "valor" [("tipo", "21")] (Some (Dec.fmt2 v_total_item))]
       ++ valor_fcp
       ++ contribuinteDestinatario dados_nfe
       ++ camposExtras o chave)%list in
  let guia :=
    ET.node "TDadosGNRE" [("versao", "2.00")]
      ([ET.leaf "ufFavorecida" [] (Some uf);
        ET.leaf "tipoGnre" [] (Some "0");
        contribuinteEmitente dados_nfe uf o;
        ET.node "itensGNRE" [] [item];
        ET.leaf "valorGNRE" [] (Some (Dec.fmt2 v_total_item))]
       ++ given (data_pagamento o) "dataPagamento")%list in
  ET.node "TLote_GNRE" [("versao", "2.00")] [ET.node "guias" [] [guia]].

(** the construction, once the arguments are validated: the total of
    the item is added up and the FCP total tested on the way *)
Definition lote_tree (dados_nfe : gmap string (option string)) (o : lote_options)
    (v : lote_values) : result Element :=
  let* v_total_item := Dec.add (lv_vprincipal v) (lv_vFCP_total v) in
  let* has_fcp := Dec.gt (lv_vFCP_total v) Dec.zero in
  Ok (lote_element dados_nfe o v v_total_item has_fcp).

(** the tree that [build_lote_xml] serializes *)
Definition build_lote_tree (dados_nfe : gmap string (option string))
    (uf_favorecida : option string) (receita : string) (o : lote_options)
  : result Element :=
  let* v := lote_checked dados_nfe uf_favorecida receita o in
  lote_tree dados_nfe o v.

Definition build_lote_xml (dados_nfe : gmap string (option string))
    (uf_favorecida : option string) (receita : string) (o : lote_options)
  : result string :=
  let* lote := build_lote_tree dados_nfe uf_favorecida receita o in
  Ok (ET.tostring lote).

End Clock.

(** ** [build_lote_consulta_xml] *)

Definition tipos_consulta : list string := ["C"; "N"; "D"; "CD"; "ND"; "CR"; "NR"].

Definition lote_consulta_tree (uf tipo_consulta : string)
    (doc_origem doc_tipo cod_barras num_controle : option string)
    (emitente_cnpj emitente_cpf emitente_ie : option string) : result Element :=
  check _require (Str.truthy uf) "uf obrigatória" in
  check _require (existsb (String.eqb tipo_consulta) tipos_consulta) "tipoConsulta inválido" in
  let emitenteId :=
    if truthy emitente_cnpj || truthy emitente_cpf || truthy emitente_ie
    then [ET.node "emitenteId" []
            (given emitente_cnpj "CNPJ" ++ given emitente_cpf "CPF"
             ++ given emitente_ie "IE")%list]
    else [] in
  let docOrigem :=
    if truthy doc_origem && truthy doc_tipo
    then [ET.leaf "docOrigem" [("tipo", or_empty doc_tipo)] doc_origem]
    else [] in
  Ok (ET.node "TLote_ConsultaGNRE" [("versao", "2.00")]
        [ET.node "consulta" []
           ([ET.leaf "uf" [] (Some uf)]
            ++ emitenteId
            ++ given cod_barras "codBarras"
            ++ given num_controle "numControle"
            ++ docOrigem
            ++ [ET.leaf "tipoConsulta" [] (Some tipo_consulta)])%list]).

Definition build_lote_consulta_xml (uf tipo_consulta : string)
    (doc_origem doc_tipo cod_barras num_controle : option string)
    (emitente_cnpj emitente_cpf emitente_ie : option string) : result string :=
  let* lote := lote_consulta_tree uf tipo_consulta doc_origem doc_tipo cod_barras
                 num_controle emitente_cnpj emitente_cpf emitente_ie in
  Ok (ET.tostring lote).

(** ** [build_consulta_resultado_xml] *)

(** a sub-element with text S, created when its flag is set *)
Definition flag (b : bool) (name : string) : list Element :=
  if b then [ET.leaf name [] (Some "S")] else [].

Definition consulta_resultado_tree (ambiente numero_recibo : string)
    (incluir_pdf incluir_arquivo_pagamento incluir_noticias : bool) : Element :=
  Elem (ET.ns "TConsLote_GNRE") [] None
    ([ET.leaf "ambiente" [] (Some ambiente);
      ET.leaf "numeroRecibo" [] (Some numero_recibo)]
     ++ flag incluir_pdf "incluirPDFGuias"
     ++ flag incluir_arquivo_pagamento "incluirArquivoPagamento"
     ++ flag incluir_noticias "incluirNoticias")%list.

Definition build_consulta_resultado_xml (ambiente numero_recibo : string)
    (incluir_pdf incluir_arquivo_pagamento incluir_noticias : bool) : result string :=
  Ok (ET.tostring (consulta_resultado_tree ambiente numero_recibo incluir_pdf
                     incluir_arquivo_pagamento incluir_noticias)).

(** ** [build_consulta_config_uf_xml] *)

Definition consulta_config_uf_tree (ambiente uf : string)
    (receita tipos_gnre : option string) : Element :=
  let tiposGnre :=
    if bool_decide (tipos_gnre = Some "S") || bool_decide (tipos_gnre = Some "N")
    then [ET.leaf "tiposGnre" [] tipos_gnre] else [] in
  Elem (ET.ns "TConsultaConfigUf") [] None
    ([ET.leaf "ambiente" [] (Some ambiente);
      ET.leaf "uf" [] (Some uf)]
     ++ given receita "receita"
     ++ tiposGnre)%list.

Definition build_consulta_config_uf_xml (ambiente uf : string)
    (receita tipos_gnre : option string) : result string :=
  Ok (ET.tostring (consulta_config_uf_tree ambiente uf receita tipos_gnre)).

(** ** Queries on a document *)

(** a test on the tag and the attributes of an element *)
Definition by_head (q : string -> list (string * string) -> bool) (e : Element) : bool :=
  q (ET.tag e) (ET.attrib e).

(** [[x for x in e.iter() if p(x)]] *)
Definition findall (p : Element -> bool) (e : Element) : list Element :=
  List.filter p (ET.iter e).

Definition findall_list (p : Element -> bool) (l : list Element) : list Element :=
  List.filter p (flat_map ET.iter l).

(** the test [q] rejects every element named in [names] that has no
    attribute *)
Definition skips (q : string -> list (string * string) -> bool) (names : list string)
  : bool :=
  forallb (fun n => negb (q (ET.ns n) [])) names.

(** a [valor] element with the attribute [tipo] *)
Definition is_valor (tipo : string) : Element -> bool :=
  by_head (fun t a =>
    String.eqb t (ET.ns "valor")
    && match ET.attr "tipo" a with
       | Some x => String.eqb x tipo
       | None => false
       end).

(** an element with the tag [name] *)
Definition has_tag (name : string) : Element -> bool :=
  by_head (fun t _ => String.eqb t (ET.ns name)).

(** the block of the extra field 107 carrying [chave] *)
Definition campo_107 (chave : string) : Element :=
  ET.node "camposExtras" []
    [ET.node "campoExtra" []
       [ET.leaf "codigo" [] (Some "107"); ET.leaf "valor" [] (Some chave)]].

(** the invoice key passes the test of the builder *)
Definition chave_ok (dados_nfe : gmap string (option string)) : bool :=
  let chave := Str.strip (or_empty (get dados_nfe "chave_nfe")) in
  Str.truthy chave && Str.isdigit chave && (1 <=? Str.len chave) && (Str.len chave <=? 44).

(** the issuer has a CNPJ or a CPF *)
Definition ident_ok (dados_nfe : gmap string (option string)) : bool :=
  truthy (get dados_nfe "emitente_cnpj") || truthy (get dados_nfe "emitente_cpf").

(** ** Sample invoices *)

(** an invoice from RJ to SP with ST of 100.00 *)
Definition nfe_rj_sp : gmap string (option string) :=
  <["uf_destinatario" := Some " sp"]>
    (<["uf_emitente" := Some "RJ"]> (<["valor_vST" := Some "100.00"]> ∅)).

(** an invoice with an ICMS-destination amount of 50.5 *)
Definition nfe_difal : gmap string (option string) :=
  <["valor_vICMSUFDest" := Some "50.5"]> (<["valor_vST" := Some "7.00"]> ∅).

(** an issuer and a 44-digit key, and no tax amount *)
Definition nfe_sem_valores : gmap string (option string) :=
  <["emitente_cnpj" := Some "12345678000199"]>
    (<["chave_nfe" := Some "35200112345678000199550010000001231000001234"]> ∅).

(** the same with ST of 100.00 and FCP-ST of 2.50 *)
Definition nfe_st_fcp : gmap string (option string) :=
  <["valor_vST" := Some "100.00"]> (<["valor_vFCPST" := Some "2.50"]> nfe_sem_valores).

(** the same with a municipality code of three digits *)
Definition nfe_mun_curto : gmap string (option string) :=
  <["emitente_cod_mun" := Some "123"]> nfe_st_fcp.

(** the default options with a principal override *)
Definition options_principal (valor : string) : lote_options :=
  {| detalhamento_receita := None; produto := None; doc_origem_tipo := None;
     incluir_campo_107 := true; valor_principal := Some valor; data_vencimento := None;
     razao_social_emitente := None; data_pagamento := None |}.

(** the default options with a due date *)
Definition options_vencimento (data : string) : lote_options :=
  {| detalhamento_receita := None; produto := None; doc_origem_tipo := None;
     incluir_campo_107 := true; valor_principal := None; data_vencimento := Some data;
     razao_social_emitente := None; data_pagamento := None |}.

(** options that give the detail code, the product and the payment date *)
Definition options_item : lote_options :=
  {| detalhamento_receita := Some "000055"; produto := Some "89"; doc_origem_tipo := None;
     incluir_campo_107 := true; valor_principal := None; data_vencimento := None;
     razao_social_emitente := None; data_pagamento := Some "2024-02-12" |}.

(** a parser that accepts no string *)
Definition fromisoformat_none (s : string) : option date := None.

(** ** Names for the values written in a guide *)

(** the favored state written in the guide *)
Definition uf_of (dados_nfe : gmap string (option string)) (uf_favorecida : option string)
  : string :=
  Str.strip (or_empty (por uf_favorecida (get dados_nfe "uf_destinatario"))).

(** the invoice key as the builder reads it *)
Definition chave_of (dados_nfe : gmap string (option string)) : string :=
  Str.strip (or_empty (get dados_nfe "chave_nfe")).

(** the type of the origin document *)
Definition doc_tipo_of (o : lote_options) : string :=
  Str.strip (or_empty (por (doc_origem_tipo o) (Some "10"))).

(** a string of digits, possibly empty *)
Definition digits_only (s : string) : bool := Str.all Str.chr_isdigit s.

(** an element with the tag [a] or the tag [b] *)
Definition has_tag2 (a b : string) : Element -> bool :=
  by_head (fun t _ => String.eqb t (ET.ns a) || String.eqb t (ET.ns b)).

(** the messages of the validation errors of [build_lote_xml] *)
Definition msg_uf : string := "ufFavorecida é obrigatória".
Definition msg_receita : string :=
  "receita deve ter 6 dígitos ou ser dedutível pelos valores da NF-e".
Definition msg_receita6 : string := "receita deve ter 6 dígitos".
Definition msg_emitente : string := "Emitente deve possuir CNPJ ou CPF".
Definition msg_documento : string := "documentoOrigem inválido".

(** ** More sample inputs *)

(** an invoice with an ST amount and a negative ICMS-destination amount *)
Definition nfe_st : gmap string (option string) :=
  <["valor_vST" := Some "12.3"]> (<["valor_vICMSUFDest" := Some "-1"]> ∅).

(** a parser for the timestamps of the sample invoices *)
Definition fromisoformat_sample (s : string) : option date :=
  if String.eqb s "2024-03-09T10:00:00+00:00" then Some (Date 2024 3 9) else None.

(** a finite decimal *)
Definition is_finite (d : Decimal) : bool :=
  match d with Finite _ _ _ => true | _ => false end.

(** an amount written with two fraction digits: an optional minus
    sign, at least one digit, a point and two digits *)
Definition two_decimals (s : string) : Prop :=
  exists sign ip fp,
    s = sign ++ ip ++ "." ++ fp
    /\ (sign = "" \/ sign = "-")
    /\ Str.isdigit ip = true
    /\ String.length fp = 2%nat /\ digits_only fp = true.

(** the opening tag of a root element named [name], with the
    declaration of the default namespace and the attributes [attrs] as
    they are written *)
Definition root_open (name attrs : string) : string :=
  "<" ++ name ++ " xmlns=" ++ ET.dquote ++ GNRE_NS ++ ET.dquote ++ attrs.

(** the attribute versao="2.00" as it is written *)
Definition versao_2 : string := " versao=" ++ ET.dquote ++ "2.00" ++ ET.dquote.


(** * Properties *)

(** ** The error monad *)

Lemma bind_Ok {A B : Type} (m : result A) (k : A -> result B) (b : B) :
  bind m k = Ok b -> exists a, m = Ok a /\ k a = Ok b.
Proof. destruct m as [a|e]; simpl; [eauto | discriminate]. Qed.

Lemma require_Ok (cond : bool) (msg : string) (u : unit) :
  _require cond msg = Ok u -> cond = true.
Proof. destruct cond; [reflexivity | discriminate]. Qed.

(** inversion of a monadic computation that returned *)
Ltac inv_bind H :=
  repeat match type of H with
    | bind _ _ = Ok _ =>
        let a := fresh "a" in
        let Ha := fresh "Ha" in
        apply bind_Ok in H as (a & Ha & H)
    end.

(** ** Decimal comparisons against zero *)

Module DecFacts.

Lemma gt_zero (d : Decimal) :
  Dec.is_nan d = false -> Dec.gt d Dec.zero = Ok (is_positive d).
Proof.
  destruct d as [s c e|s|sg s p]; simpl; intros Hn; try discriminate.
  - unfold Dec.gt, Dec.compare_with, Dec.cmp, Dec.zero; simpl.
    destruct (c =? 0); simpl; [now rewrite andb_false_r|].
    destruct s; reflexivity.
  - destruct s; reflexivity.
Qed.

Lemma gt_zero_inv (d : Decimal) (b : bool) :
  Dec.gt d Dec.zero = Ok b -> Dec.is_nan d = false /\ b = is_positive d.
Proof.
  destruct d as [s c e|s|sg s p]; intros H.
  - split; [reflexivity|]. rewrite gt_zero in H by reflexivity. congruence.
  - split; [reflexivity|]. rewrite gt_zero in H by reflexivity. congruence.
  - discriminate H.
Qed.

Lemma positive_not_nan (d : Decimal) : is_positive d = true -> Dec.is_nan d = false.
Proof. destruct d; simpl; [reflexivity | reflexivity | discriminate]. Qed.

Lemma ge_zero2 (d : Decimal) :
  Dec.is_nan d = false -> Dec.ge d Dec.zero2 = Ok (negb (is_negative d)).
Proof.
  destruct d as [s c e|s|sg s p]; simpl; intros Hn; try discriminate.
  - unfold Dec.ge, Dec.compare_with, Dec.cmp, Dec.zero2; simpl.
    destruct (c =? 0); simpl; [now rewrite andb_false_r|].
    destruct s; reflexivity.
  - destruct s; reflexivity.
Qed.

Lemma ge_zero2_inv (d : Decimal) (b : bool) :
  Dec.ge d Dec.zero2 = Ok b -> Dec.is_nan d = false /\ b = negb (is_negative d).
Proof.
  destruct d as [s c e|s|sg s p]; intros H.
  - split; [reflexivity|]. rewrite ge_zero2 in H by reflexivity. congruence.
  - split; [reflexivity|]. rewrite ge_zero2 in H by reflexivity. congruence.
  - discriminate H.
Qed.

(** a comparison raises nothing but InvalidOperation *)
Lemma compare_raises (t : comparison -> bool) (a b : Decimal) (e : exn) :
  Dec.compare_with t a b = Raise e -> e = InvalidOperation.
Proof.
  unfold Dec.compare_with. destruct (Dec.is_nan a || Dec.is_nan b); congruence.
Qed.

Lemma fix_raises (s : bool) (c e : Z) (x : exn) :
  Dec.fix_ s c e = Raise x -> x = Overflow.
Proof.
  unfold Dec.fix_.
  repeat match goal with
    | |- context [if ?b then _ else _] => destruct b
    | |- context [let '(_, _) := ?p in _] => destruct p
    end; congruence.
Qed.

(** an addition raises InvalidOperation or Overflow, never ValueError *)
Lemma add_raises (a b : Decimal) (x : exn) :
  Dec.add a b = Raise x -> x = InvalidOperation \/ x = Overflow.
Proof.
  destruct a as [s1 c1 e1|s1|g1 s1 p1], b as [s2 c2 e2|s2|g2 s2 p2]; simpl;
    repeat match goal with
      | |- context [if ?b then _ else _] => destruct b
      | |- context [let '(_, _) := ?p in _] => destruct p
      | |- Dec.fix_ _ _ _ = _ -> _ => intros H; apply fix_raises in H; auto
      end; try congruence; intros H; injection H; auto.
Qed.

(** the sum of two zeros is a zero *)
Lemma add_zeros (a b : Decimal) :
  is_zero a = true -> is_zero b = true ->
  exists s e, Dec.add a b = Ok (Finite s 0 e).
Proof.
  destruct a as [s1 c1 e1| |], b as [s2 c2 e2| |]; simpl; try discriminate.
  intros Ha Hb. rewrite Ha, Hb. simpl. unfold Dec.fix_. simpl. eauto.
Qed.

End DecFacts.

(** sample values of the decimal model *)
Example dec_samples :
  _dec (Some " 1_0.5e3 ") = Finite false 105 2
  /\ _dec (Some "abc") = Dec.zero /\ _dec (Some "") = Dec.zero /\ _dec None = Dec.zero
  /\ _dec (Some "-sNaN12") = NaN true true 12
  /\ Dec.fmt2 (_dec (Some "2.675")) = "2.68" /\ Dec.fmt2 (_dec (Some "0.125")) = "0.12"
  /\ Dec.fmt2 (_dec (Some "-0")) = "-0.00" /\ Dec.fmt2 (_dec (Some "1e3")) = "1000.00"
  /\ Dec.add (_dec (Some "1.50")) (_dec (Some "2.5")) = Ok (Finite false 400 (-2))
  /\ Dec.add (_dec (Some "9999999999999999999999999999")) (_dec (Some "0.5"))
     = Ok (Finite false 1000000000000000000000000000 1)
  /\ Dec.add (_dec (Some "inf")) (_dec (Some "-inf")) = Raise InvalidOperation
  /\ Dec.add (_dec (Some "1e999999")) (_dec (Some "9e999999")) = Raise Overflow
  /\ Dec.gt (_dec (Some "nan")) Dec.zero = Raise InvalidOperation
  /\ Dec.gt (_dec (Some "1.5")) (_dec (Some "1.49")) = Ok true
  /\ Dec.gt (_dec (Some "1.49")) (_dec (Some "1.5")) = Ok false
  /\ Dec.ge (_dec (Some "-0")) Dec.zero2 = Ok true.
Proof. repeat split; vm_compute; reflexivity. Qed.

(** ** Strings *)

Module StrFacts.

Lemma truthy_iff (s : string) : Str.truthy s = true <-> s <> "".
Proof. destruct s; unfold Str.truthy; simpl; intuition congruence. Qed.

Lemma neqb_iff (a b : string) : negb (String.eqb a b) = true <-> a <> b.
Proof.
  destruct (String.eqb_spec a b); simpl; intuition congruence.
Qed.

Lemma filter_all (p : ascii -> bool) (s : string) :
  Str.all p s = true -> Str.filter p s = s.
Proof.
  induction s as [|c r IH]; simpl; [reflexivity|].
  destruct (p c); simpl; [|discriminate]. intros H. now rewrite IH.
Qed.

(** [_digits] leaves a string of digits as it is *)
Lemma digits_of_isdigit (s : string) : Str.isdigit s = true -> digits_of s = s.
Proof.
  unfold Str.isdigit, digits_of. intros H.
  apply andb_true_iff in H as [_ H]. now apply filter_all.
Qed.

End StrFacts.

(** ** The evaluator *)

Lemma in_SP_ES_iff (uf : string) : in_SP_ES uf = true <-> uf = "SP" \/ uf = "ES".
Proof.
  unfold in_SP_ES. rewrite orb_true_iff.
  destruct (String.eqb_spec uf "SP"), (String.eqb_spec uf "ES"); intuition congruence.
Qed.

(** the flag, when it is computed, is the conjunction of its four tests *)
Lemma manual_of_spec (uf_dest uf_emit : string) (total : Decimal) (manual : bool) :
  manual_of uf_dest uf_emit total = Ok manual ->
  manual = true <->
    (uf_dest = "SP" \/ uf_dest = "ES") /\ uf_emit <> "" /\ uf_emit <> uf_dest
    /\ is_positive total = true.
Proof.
  unfold manual_of. rewrite <- in_SP_ES_iff, <- StrFacts.truthy_iff, <- StrFacts.neqb_iff.
  destruct (in_SP_ES uf_dest), (Str.truthy uf_emit), (negb (String.eqb uf_emit uf_dest));
    simpl; intros H;
    try (injection H as <-; intuition congruence).
  apply DecFacts.gt_zero_inv in H as [_ ->]. intuition congruence.
Qed.

Lemma need_values_total dados receita valor_principal v :
  need_values_of dados receita valor_principal = Ok v ->
  Dec.add (nv_vprincipal v) (nv_vFCP_total v) = Ok (nv_v_total_item v).
Proof.
  unfold need_values_of. intros H. inv_bind H. injection H as <-. simpl. assumption.
Qed.

(** C1: the manual-handling flag is true exactly when the destination
    state (trimmed and upper-cased, as the evaluator reads it) is SP or
    ES, the issuer state (read the same way) is not empty and differs
    from it, and the computed total, principal plus FCP total, is
    greater than zero; when the flag is true the evaluator returns, with
    a null revenue code and status M, whatever code was resolved. *)
Theorem evaluate_manual_handling
    (dados_nfe : gmap string (option string)) (receita valor_principal : option string)
    (v : need_values) :
  need_values_of dados_nfe receita valor_principal = Ok v ->
  let uf_dest := uf_dest_of dados_nfe in
  let uf_emit := uf_emit_of dados_nfe in
  let total := nv_v_total_item v in
  Dec.add (nv_vprincipal v) (nv_vFCP_total v) = Ok total
  /\ (forall manual, manual_of uf_dest uf_emit total = Ok manual ->
        (manual = true <->
           (uf_dest = "SP" \/ uf_dest = "ES") /\ uf_emit <> "" /\ uf_emit <> uf_dest
           /\ is_positive total = true)
        /\ (manual = true ->
            exists res, evaluate_gnre_need dados_nfe receita valor_principal = Ok res
                        /\ Need.receita res = None /\ Need.necessario res = "M"))
  /\ (forall res, evaluate_gnre_need dados_nfe receita valor_principal = Ok res ->
        exists manual, manual_of uf_dest uf_emit total = Ok manual
                       /\ (manual = true ->
                           Need.receita res = None /\ Need.necessario res = "M")
                       /\ (manual = false -> Need.necessario res <> "M")).
Proof.
  intros Hv uf_dest uf_emit total. split; [now apply need_values_total in Hv|]. split.
  - intros manual Hm. split; [now apply manual_of_spec|].
    intros ->. unfold evaluate_gnre_need. rewrite Hv. simpl.
    fold uf_dest uf_emit total. rewrite Hm. simpl. eauto.
  - intros res Hres. unfold evaluate_gnre_need in Hres. rewrite Hv in Hres. simpl in Hres.
    fold uf_dest uf_emit total in Hres.
    destruct (manual_of uf_dest uf_emit total) as [manual|] eqn:Hm; [|discriminate].
    exists manual. split; [reflexivity|]. simpl in Hres.
    destruct manual; simpl in Hres.
    + injection Hres as <-. simpl. split; [auto | discriminate].
    + destruct (Dec.gt total Dec.zero) as [needed|]; [|discriminate].
      simpl in Hres. injection Hres as <-. simpl. split; [discriminate|].
      intros _. destruct needed; discriminate.
Qed.

Lemma evaluate_manual_handling_witness :
  exists res, evaluate_gnre_need nfe_rj_sp None None = Ok res
              /\ Need.receita res = None /\ Need.necessario res = "M".
Proof.
  assert (Hv : need_values_of nfe_rj_sp None None
               = Ok {| nv_r := "100099"; nv_vprincipal := Finite false 10000 (-2);
                       nv_vFCP_total := Finite false 0 0;
                       nv_v_total_item := Finite false 10000 (-2) |})
    by (vm_compute; reflexivity).
  destruct (evaluate_manual_handling nfe_rj_sp None None _ Hv) as (_ & H & _).
  destruct (H true) as [_ Hres]; [vm_compute; reflexivity|].
  apply Hres. reflexivity.
Defined.

Lemma resolve_receita_difal (receita : option string) (vICMSUF_nfe vST_nfe : Decimal) :
  is_code6 (or_empty receita) = false ->
  is_positive vICMSUF_nfe = true ->
  resolve_receita receita vICMSUF_nfe vST_nfe = Ok "100102".
Proof.
  intros Hr Hp. unfold resolve_receita. rewrite Hr. simpl.
  rewrite DecFacts.gt_zero by now apply DecFacts.positive_not_nan.
  rewrite Hp. reflexivity.
Qed.

(** C2: when the inter-state ICMS-destination amount is greater than
    zero, the hint is not a 6-digit numeric code and no principal
    override is given, the evaluator resolves code 100102 and returns
    the ICMS-destination amount, formatted with two fraction digits, as
    the principal; it returns whenever the FCP sum and the total can be
    computed. *)
Theorem evaluate_difal_without_hint
    (dados_nfe : gmap string (option string)) (receita : option string) :
  let vST_nfe := _dec (get dados_nfe "valor_vST") in
  let vICMSUF_nfe := _dec (get dados_nfe "valor_vICMSUFDest") in
  let vFCPUF_nfe := _dec (get dados_nfe "valor_vFCPUFDest") in
  let vFCPST_nfe := _dec (get dados_nfe "valor_vFCPST") in
  is_code6 (or_empty receita) = false ->
  is_positive vICMSUF_nfe = true ->
  resolve_receita receita vICMSUF_nfe vST_nfe = Ok "100102"
  /\ (forall v, need_values_of dados_nfe receita None = Ok v ->
        nv_r v = "100102" /\ nv_vprincipal v = vICMSUF_nfe)
  /\ (forall res, evaluate_gnre_need dados_nfe receita None = Ok res ->
        Need.valor_principal res = Dec.fmt2 vICMSUF_nfe
        /\ (Need.receita res = Some "100102"
            \/ Need.receita res = None /\ Need.necessario res = "M"))
  /\ (forall fcp total,
        Dec.add vFCPUF_nfe vFCPST_nfe = Ok fcp ->
        Dec.add vICMSUF_nfe fcp = Ok total ->
        Dec.is_nan total = false ->
        exists res, evaluate_gnre_need dados_nfe receita None = Ok res).
Proof.
  intros vST_nfe vICMSUF_nfe vFCPUF_nfe vFCPST_nfe Hr Hp.
  pose proof (resolve_receita_difal receita vICMSUF_nfe vST_nfe Hr Hp) as Hres.
  assert (Hv : forall v, need_values_of dados_nfe receita None = Ok v ->
                         nv_r v = "100102" /\ nv_vprincipal v = vICMSUF_nfe).
  { intros v H. unfold need_values_of in H.
    fold vST_nfe vICMSUF_nfe vFCPUF_nfe vFCPST_nfe in H.
    rewrite Hres in H. simpl in H. inv_bind H. injection H as <-. simpl. auto. }
  split; [exact Hres|]. split; [exact Hv|]. split.
  - intros res H. unfold evaluate_gnre_need in H. inv_bind H.
    destruct (Hv _ Ha) as [Hr' Hp']. injection H as <-. simpl.
    rewrite Hr', Hp'. split; [reflexivity|].
    destruct a0; simpl; [right; split; [reflexivity|]|left; reflexivity].
    simpl in Ha1. congruence.
  - intros fcp total Hf Ht Hn. unfold evaluate_gnre_need, need_values_of.
    fold vST_nfe vICMSUF_nfe vFCPUF_nfe vFCPST_nfe.
    rewrite Hres. simpl. rewrite Hf. simpl. rewrite Ht. simpl.
    unfold manual_of. rewrite (DecFacts.gt_zero total Hn).
    destruct (in_SP_ES _ && Str.truthy _ && negb _); simpl;
      destruct (is_positive total); simpl; eauto.
Qed.

Lemma evaluate_difal_without_hint_witness :
  exists res, evaluate_gnre_need nfe_difal (Some "1001") None = Ok res
              /\ Need.valor_principal res = "50.50"
              /\ Need.receita res = Some "100102".
Proof.
  destruct (evaluate_difal_without_hint nfe_difal (Some "1001") eq_refl eq_refl)
    as (_ & _ & Hres & Hex).
  destruct (Hex (Finite false 0 0) (Finite false 505 (-1)) eq_refl eq_refl eq_refl)
    as [res Hr].
  exists res. split; [exact Hr|].
  destruct (Hres res Hr) as [Hp Hc]. split; [rewrite Hp; reflexivity|].
  destruct Hc as [Hc|[_ Hc]]; [exact Hc|].
  vm_compute in Hr. injection Hr as <-. discriminate Hc.
Defined.

(** C3: the revenue code returned by the evaluator is not always null
    or six digits: a hint that is not a 6-digit code, given with an
    invoice whose tax amounts are all zero, is returned as it was
    received. *)
Theorem evaluate_returns_malformed_hint :
  evaluate_gnre_need ∅ (Some "abc") None
  = Ok {| Need.receita := Some "abc";
          Need.valor_principal := "0.00";
          Need.valor_fcp := "0.00";
          Need.valor_total_item := "0.00";
          Need.necessario := "N" |}
  /\ is_code6 "abc" = false.
Proof. split; vm_compute; reflexivity. Qed.

(** ** Queries on a document *)

Module Find.

Lemma iter_eq t a x cs : ET.iter (Elem t a x cs) = Elem t a x cs :: flat_map ET.iter cs.
Proof. reflexivity. Qed.

Lemma list_nil p : findall_list p [] = [].
Proof. reflexivity. Qed.

Lemma list_cons p e l : findall_list p (e :: l) = (findall p e ++ findall_list p l)%list.
Proof. unfold findall_list, findall. simpl. apply List.filter_app. Qed.

Lemma list_app p l1 l2 :
  findall_list p (l1 ++ l2) = (findall_list p l1 ++ findall_list p l2)%list.
Proof. unfold findall_list. rewrite flat_map_app. apply List.filter_app. Qed.

Lemma elem q t a x cs :
  findall (by_head q) (Elem t a x cs)
  = ((if q t a then [Elem t a x cs] else []) ++ findall_list (by_head q) cs)%list.
Proof.
  unfold findall. rewrite iter_eq. simpl. unfold by_head at 1. simpl.
  destruct (q t a); reflexivity.
Qed.

Lemma leaf q name a x :
  findall (by_head q) (ET.leaf name a x)
  = if q (ET.ns name) a then [ET.leaf name a x] else [].
Proof. unfold ET.leaf. rewrite elem, list_nil. destruct (q _ _); reflexivity. Qed.

Lemma node q name a cs :
  findall (by_head q) (ET.node name a cs)
  = ((if q (ET.ns name) a then [ET.node name a cs] else [])
     ++ findall_list (by_head q) cs)%list.
Proof. apply elem. Qed.

Lemma skips_cons q n names :
  skips q (n :: names) = true -> q (ET.ns n) [] = false /\ skips q names = true.
Proof.
  unfold skips. simpl. intros H. apply andb_true_iff in H as [H1 H2].
  split; [now apply negb_true_iff|assumption].
Qed.

Lemma in_field q dados key name :
  skips q [name] = true -> findall_list (by_head q) (field dados key name) = [].
Proof.
  intros H. apply skips_cons in H as [H _]. unfold field.
  destruct (truthy _); [|reflexivity].
  rewrite list_cons, leaf, H. reflexivity.
Qed.

Lemma in_given q value name :
  skips q [name] = true -> findall_list (by_head q) (given value name) = [].
Proof.
  intros H. apply skips_cons in H as [H _]. unfold given.
  destruct (truthy _); [|reflexivity].
  rewrite list_cons, leaf, H. reflexivity.
Qed.

Lemma in_municipio q dados key :
  skips q ["municipio"] = true -> findall_list (by_head q) (municipio dados key) = [].
Proof.
  intros H. apply skips_cons in H as [H _]. unfold municipio.
  destruct (truthy _); [|reflexivity].
  rewrite list_cons, leaf, H. reflexivity.
Qed.

Lemma in_cnpj_or_cpf q dados cnpj cpf :
  skips q ["CNPJ"; "CPF"] = true ->
  findall_list (by_head q) (cnpj_or_cpf dados cnpj cpf) = [].
Proof.
  intros H. apply skips_cons in H as [H1 H2]. unfold cnpj_or_cpf.
  destruct (truthy _); [|now apply in_field].
  rewrite list_cons, leaf, H1. reflexivity.
Qed.

Lemma in_contribuinteEmitente q dados uf o :
  skips q ["contribuinteEmitente"; "identificacao"; "CNPJ"; "CPF"; "IE"; "razaoSocial";
           "endereco"; "municipio"; "uf"; "cep"; "telefone"] = true ->
  findall (by_head q) (contribuinteEmitente dados uf o) = [].
Proof.
  intros H.
  apply skips_cons in H as [Hce H]. apply skips_cons in H as [Hid H].
  apply skips_cons in H as [Hcnpj H]. apply skips_cons in H as [Hcpf H].
  apply skips_cons in H as [Hie H]. apply skips_cons in H as [Hrs H].
  apply skips_cons in H as [Hend H]. apply skips_cons in H as [Hmun H].
  apply skips_cons in H as [Huf H]. apply skips_cons in H as [Hcep H].
  apply skips_cons in H as [Htel _].
  unfold contribuinteEmitente. rewrite node, Hce.
  rewrite !list_app, list_cons, node, Hid, list_app, list_nil.
  rewrite in_cnpj_or_cpf by (unfold skips; simpl; now rewrite Hcnpj, Hcpf).
  rewrite !in_field by (unfold skips; simpl; now rewrite ?Hend, ?Huf, ?Hcep, ?Htel).
  rewrite in_municipio by (unfold skips; simpl; now rewrite Hmun).
  destruct (truthy (get dados "emitente_ie") && _);
    [rewrite list_cons, leaf, Hie, list_nil|rewrite list_nil];
    (destruct (truthy (razao_social_emitente o));
     [rewrite list_cons, leaf, Hrs, list_nil; reflexivity
     |rewrite in_field by (unfold skips; simpl; now rewrite Hrs); reflexivity]).
Qed.

Lemma in_contribuinteDestinatario q dados :
  skips q ["contribuinteDestinatario"; "identificacao"; "CNPJ"; "CPF"; "razaoSocial";
           "municipio"] = true ->
  findall_list (by_head q) (contribuinteDestinatario dados) = [].
Proof.
  intros H.
  apply skips_cons in H as [Hcd H]. apply skips_cons in H as [Hid H].
  apply skips_cons in H as [Hcnpj H]. apply skips_cons in H as [Hcpf H].
  apply skips_cons in H as [Hrs H]. apply skips_cons in H as [Hmun _].
  unfold contribuinteDestinatario. destruct (truthy _ || truthy _); [|reflexivity].
  rewrite list_cons, node, Hcd, list_nil.
  rewrite !list_app, list_cons, node, Hid, list_nil.
  rewrite in_cnpj_or_cpf by (unfold skips; simpl; now rewrite Hcnpj, Hcpf).
  rewrite in_field by (unfold skips; simpl; now rewrite Hrs).
  rewrite in_municipio by (unfold skips; simpl; now rewrite Hmun).
  reflexivity.
Qed.

End Find.

(** ** The submission guide *)

Module Lote.

Ltac split_skips H :=
  repeat (let Hs := fresh "Hs" in apply Find.skips_cons in H as [Hs H]).

Ltac use_skips :=
  repeat match goal with
    | Hs : ?q _ _ = false |- _ => rewrite !Hs; clear Hs
    | Hs : forall _, ?q _ _ = false |- _ => rewrite !Hs; clear Hs
    end.

(** the elements of a guide selected by a test that rejects the
    fixed frame of the document: only the three value entries and the
    extra-field block can be selected *)
Lemma findall_element q fromisoformat today dados o v total has_fcp :
  skips q
    ["guias"; "ufFavorecida"; "tipoGnre"; "itensGNRE"; "item"; "receita";
     "detalhamentoReceita"; "produto"; "referencia"; "periodo"; "mes"; "ano";
     "dataVencimento"; "valorGNRE"; "dataPagamento"] = true ->
  skips q
    ["contribuinteEmitente"; "identificacao"; "CNPJ"; "CPF"; "IE"; "razaoSocial";
     "endereco"; "municipio"; "uf"; "cep"; "telefone"] = true ->
  skips q
    ["contribuinteDestinatario"; "identificacao"; "CNPJ"; "CPF"; "razaoSocial";
     "municipio"] = true ->
  q (ET.ns "TLote_GNRE") [("versao", "2.00")] = false ->
  q (ET.ns "TDadosGNRE") [("versao", "2.00")] = false ->
  (forall doc_tipo, q (ET.ns "documentoOrigem") [("tipo", doc_tipo)] = false) ->
  findall (by_head q) (lote_element fromisoformat today dados o v total has_fcp)
  = ((if q (ET.ns "valor") [("tipo", "11")]
      then [ET.leaf "valor" [("tipo", "11")] (Some (Dec.fmt2 (lv_vprincipal v)))]
      else [])
     ++ (if q (ET.ns "valor") [("tipo", "21")]
         then [ET.leaf "valor" [("tipo", "21")] (Some (Dec.fmt2 total))]
         else [])
     ++ (if has_fcp && q (ET.ns "valor") [("tipo", "27")]
         then [ET.leaf "valor" [("tipo", "27")] (Some (Dec.fmt2 (lv_vFCP_total v)))]
         else [])
     ++ findall_list (by_head q) (camposExtras o (lv_chave v)))%list.
Proof.
  intros Hframe Hemit Hdest Hlote Hguia Hdoc.
  assert (Hg : forall value name,
             In name ["detalhamentoReceita"; "produto"; "dataPagamento"] ->
             findall_list (by_head q) (given value name) = []).
  { intros value name Hin. apply Find.in_given. unfold skips in *. simpl.
    rewrite andb_true_r. rewrite forallb_forall in Hframe. apply Hframe.
    simpl in Hin. simpl. tauto. }
  unfold lote_element. cbv zeta.
  destruct has_fcp;
    repeat first
      [ rewrite Find.in_contribuinteEmitente by exact Hemit
      | rewrite Find.in_contribuinteDestinatario by exact Hdest
      | rewrite Hg by (simpl; tauto)
      | rewrite Find.list_app
      | rewrite Find.list_cons
      | rewrite Find.list_nil
      | rewrite Find.leaf
      | rewrite Find.node ];
    clear Hg; rewrite Hlote, Hguia, Hdoc; split_skips Hframe; use_skips; simpl;
    destruct (q _ [("tipo", "11")]), (q _ [("tipo", "21")]);
    try destruct (q _ [("tipo", "27")]);
    simpl; rewrite ?app_nil_r; reflexivity.
Qed.

Section Inversion.

Variable fromisoformat : string -> option date.
Variable today : date.
Variable dados : gmap string (option string).
Variable uf_favorecida : option string.
Variable receita : string.
Variable o : lote_options.

(** what the validation has established when it returns *)
Lemma values_inv v :
  lote_values_of dados uf_favorecida receita o = Ok v ->
  lv_uf v = Str.strip (or_empty (por uf_favorecida (get dados "uf_destinatario")))
  /\ Str.truthy (lv_uf v) = true
  /\ is_code6 (lv_receita v) = true
  /\ truthy (get dados "emitente_cnpj") || truthy (get dados "emitente_cpf") = true
  /\ lv_chave v = Str.strip (or_empty (get dados "chave_nfe"))
  /\ Str.isdigit (lv_chave v) = true
  /\ 1 <= Str.len (lv_chave v) <= 44
  /\ Dec.add (_dec (get dados "valor_vFCPUFDest")) (_dec (get dados "valor_vFCPST"))
     = Ok (lv_vFCP_total v).
Proof.
  unfold lote_values_of. intros H. inv_bind H. injection H as <-. simpl.
  repeat match goal with
    | Hr : _require _ _ = Ok _ |- _ => apply require_Ok in Hr
    end.
  repeat match goal with
    | Hb : _ && _ = true |- _ => apply andb_true_iff in Hb as [? ?]
    end.
  unfold is_code6. repeat split; try assumption; try lia.
  now apply andb_true_iff.
Qed.

Lemma checked_inv v :
  lote_checked dados uf_favorecida receita o = Ok v ->
  lote_values_of dados uf_favorecida receita o = Ok v
  /\ Dec.is_nan (lv_vprincipal v) = false
  /\ is_negative (lv_vprincipal v) = false.
Proof.
  unfold lote_checked. intros H. inv_bind H. injection H as <-.
  apply require_Ok in Ha1. subst a0.
  apply DecFacts.ge_zero2_inv in Ha0 as [Hn Hb]. repeat split; try assumption.
  now destruct (is_negative _).
Qed.

Lemma tree_inv v lote :
  lote_tree fromisoformat today dados o v = Ok lote ->
  exists total,
    Dec.add (lv_vprincipal v) (lv_vFCP_total v) = Ok total
    /\ Dec.is_nan (lv_vFCP_total v) = false
    /\ lote = lote_element fromisoformat today dados o v total
                (is_positive (lv_vFCP_total v)).
Proof.
  unfold lote_tree. intros H. inv_bind H. injection H as <-.
  apply DecFacts.gt_zero_inv in Ha0 as [Hn ->]. eauto.
Qed.

(** a guide that was produced is the serialization of a tree built
    from validated values *)
Lemma xml_inv xml :
  build_lote_xml fromisoformat today dados uf_favorecida receita o = Ok xml ->
  exists lote v,
    build_lote_tree fromisoformat today dados uf_favorecida receita o = Ok lote
    /\ xml = ET.tostring lote
    /\ lote_checked dados uf_favorecida receita o = Ok v
    /\ lote_tree fromisoformat today dados o v = Ok lote.
Proof.
  unfold build_lote_xml. intros H. inv_bind H. injection H as <-.
  exists a. pose proof Ha as Ht. unfold build_lote_tree in Ht. inv_bind Ht.
  eauto.
Qed.

End Inversion.

End Lote.

(** C6: in every submission guide that is produced, the FCP value
    entry (valor with tipo 27) is present exactly when the sum of the
    FCP-destination and FCP-ST amounts is greater than zero, and the
    total value entry (valor with tipo 21), principal plus FCP total,
    is always present, once. *)
Theorem lote_fcp_and_total_entries
    (fromisoformat : string -> option date) (today : date)
    (dados_nfe : gmap string (option string)) (uf_favorecida : option string)
    (receita : string) (o : lote_options) (xml : string) :
  build_lote_xml fromisoformat today dados_nfe uf_favorecida receita o = Ok xml ->
  exists lote v total,
    build_lote_tree fromisoformat today dados_nfe uf_favorecida receita o = Ok lote
    /\ xml = ET.tostring lote
    /\ lote_checked dados_nfe uf_favorecida receita o = Ok v
    /\ Dec.add (_dec (get dados_nfe "valor_vFCPUFDest")) (_dec (get dados_nfe "valor_vFCPST"))
       = Ok (lv_vFCP_total v)
    /\ Dec.add (lv_vprincipal v) (lv_vFCP_total v) = Ok total
    /\ findall (is_valor "21") lote
       = [ET.leaf "valor" [("tipo", "21")] (Some (Dec.fmt2 total))]
    /\ findall (is_valor "27") lote
       = (if is_positive (lv_vFCP_total v)
          then [ET.leaf "valor" [("tipo", "27")] (Some (Dec.fmt2 (lv_vFCP_total v)))]
          else []).
Proof.
  intros H. apply Lote.xml_inv in H as (lote & v & Hlote & Hxml & Hv & Ht).
  apply Lote.tree_inv in Ht as (total & Htotal & _ & ->).
  pose proof (Lote.checked_inv _ _ _ _ _ Hv) as (Hvals & _ & _).
  apply Lote.values_inv in Hvals as (_ & _ & _ & _ & _ & _ & _ & Hfcp).
  eexists; exists v, total. repeat (split; [eassumption|]).
  assert (Hextras : forall tipo,
             findall_list (is_valor tipo) (camposExtras o (lv_chave v)) = []).
  { intros tipo. unfold camposExtras. destruct (_ && _ && _); reflexivity. }
  split.
  - unfold is_valor at 1.
    match goal with |- context [by_head ?f] => set (q := f) end.
    rewrite Lote.findall_element by (try intros ?; reflexivity).
    change (q (ET.ns "valor") [("tipo", "11")]) with false.
    change (q (ET.ns "valor") [("tipo", "21")]) with true.
    change (q (ET.ns "valor") [("tipo", "27")]) with false.
    change (by_head q) with (is_valor "21").
    rewrite Hextras, andb_false_r. reflexivity.
  - unfold is_valor at 1.
    match goal with |- context [by_head ?f] => set (q := f) end.
    rewrite Lote.findall_element by (try intros ?; reflexivity).
    change (q (ET.ns "valor") [("tipo", "11")]) with false.
    change (q (ET.ns "valor") [("tipo", "21")]) with false.
    change (q (ET.ns "valor") [("tipo", "27")]) with true.
    change (by_head q) with (is_valor "27").
    rewrite Hextras, andb_true_r.
    destruct (is_positive _); reflexivity.
Qed.

Lemma lote_fcp_and_total_entries_witness :
  exists lote,
    build_lote_tree fromisoformat_none (Date 2024 1 15) nfe_st_fcp (Some "SP") ""
      default_options = Ok lote
    /\ findall (is_valor "21") lote = [ET.leaf "valor" [("tipo", "21")] (Some "102.50")]
    /\ findall (is_valor "27") lote = [ET.leaf "valor" [("tipo", "27")] (Some "2.50")].
Proof.
  assert (Hx : exists xml,
             build_lote_xml fromisoformat_none (Date 2024 1 15) nfe_st_fcp (Some "SP") ""
               default_options = Ok xml)
    by (eexists; vm_compute; reflexivity).
  destruct Hx as [xml Hx].
  destruct (lote_fcp_and_total_entries _ _ _ _ _ _ _ Hx)
    as (lote & v & total & Hlote & _ & Hv & _ & Ht & H21 & H27).
  exists lote. split; [exact Hlote|].
  vm_compute in Hv. injection Hv as <-.
  vm_compute in Ht. injection Ht as <-.
  split; [exact H21 | exact H27].
Defined.

(** C7: in every submission guide that is produced, the extra-field
    block with code 107, carrying the invoice key, is present exactly
    when the flag incluir_campo_107 is set and the invoice key (trimmed,
    as the builder reads it) is 44 numeric digits; a key of 43 digits or
    fewer never produces the block. *)
Theorem lote_campo_107
    (fromisoformat : string -> option date) (today : date)
    (dados_nfe : gmap string (option string)) (uf_favorecida : option string)
    (receita : string) (o : lote_options) (xml : string) :
  build_lote_xml fromisoformat today dados_nfe uf_favorecida receita o = Ok xml ->
  let chave := Str.strip (or_empty (get dados_nfe "chave_nfe")) in
  exists lote,
    build_lote_tree fromisoformat today dados_nfe uf_favorecida receita o = Ok lote
    /\ xml = ET.tostring lote
    /\ (findall (has_tag "camposExtras") lote = [campo_107 chave]
        \/ findall (has_tag "camposExtras") lote = [])
    /\ (findall (has_tag "camposExtras") lote = [campo_107 chave] <->
        incluir_campo_107 o = true /\ Str.isdigit chave = true /\ Str.len chave = 44)
    /\ (Str.len chave <= 43 -> findall (has_tag "camposExtras") lote = []).
Proof.
  intros H chave. apply Lote.xml_inv in H as (lote & v & Hlote & Hxml & Hv & Ht).
  apply Lote.tree_inv in Ht as (total & Htotal & _ & ->).
  pose proof (Lote.checked_inv _ _ _ _ _ Hv) as (Hvals & _ & _).
  apply Lote.values_inv in Hvals as (_ & _ & _ & _ & Hchave & Hdig & Hlen & _).
  fold chave in Hchave.
  eexists. repeat (split; [eassumption|]).
  assert (Hsel : findall (has_tag "camposExtras")
                   (lote_element fromisoformat today dados_nfe o v total
                      (is_positive (lv_vFCP_total v)))
                 = if incluir_campo_107 o && (Str.len chave =? 44)
                   then [campo_107 chave] else []).
  { unfold has_tag at 1.
    match goal with |- context [by_head ?f] => set (q := f) end.
    rewrite Lote.findall_element by (try intros ?; reflexivity).
    change (q (ET.ns "valor") [("tipo", "11")]) with false.
    change (q (ET.ns "valor") [("tipo", "21")]) with false.
    change (q (ET.ns "valor") [("tipo", "27")]) with false.
    rewrite andb_false_r. simpl.
    unfold camposExtras. rewrite Hchave, (StrFacts.digits_of_isdigit chave) by congruence.
    assert (Hne : Str.truthy chave = true) by (rewrite <- Hchave; unfold Str.isdigit in Hdig;
      now apply andb_true_iff in Hdig as [? _]).
    rewrite Hne, andb_true_r.
    destruct (incluir_campo_107 o && (Str.len chave =? 44)); reflexivity. }
  rewrite Hsel. rewrite Hchave in Hdig, Hlen.
  destruct (incluir_campo_107 o) eqn:Hflag; simpl;
    destruct (Z.eqb_spec (Str.len chave) 44) as [H44|H44];
    (split; [auto|]); (split; [|intros; try reflexivity; lia]);
    split; intros; try discriminate; try tauto; intuition congruence.
Qed.

Lemma lote_campo_107_witness :
  exists lote,
    build_lote_tree fromisoformat_none (Date 2024 1 15) nfe_st_fcp (Some "SP") ""
      default_options = Ok lote
    /\ findall (has_tag "camposExtras") lote
       = [campo_107 "35200112345678000199550010000001231000001234"].
Proof.
  assert (Hx : exists xml,
             build_lote_xml fromisoformat_none (Date 2024 1 15) nfe_st_fcp (Some "SP") ""
               default_options = Ok xml)
    by (eexists; vm_compute; reflexivity).
  destruct Hx as [xml Hx].
  destruct (lote_campo_107 _ _ _ _ _ _ _ Hx) as (lote & Hlote & _ & _ & [_ H] & _).
  exists lote. split; [exact Hlote|].
  apply H. vm_compute. repeat split; reflexivity.
Defined.

Lemma lote_principal_override dados uf_favorecida receita o v s :
  lote_values_of dados uf_favorecida receita o = Ok v ->
  valor_principal o = Some s ->
  lv_vprincipal v = _dec (Some s).
Proof.
  unfold lote_values_of. intros H Ho. inv_bind H. injection H as <-. simpl.
  unfold lote_principal. rewrite Ho. reflexivity.
Qed.

(** the construction raises no ValueError *)
Lemma lote_tree_raises fromisoformat today dados o v e :
  lote_tree fromisoformat today dados o v = Raise e ->
  e = InvalidOperation \/ e = Overflow.
Proof.
  unfold lote_tree. intros H.
  destruct (Dec.add _ _) as [total|x] eqn:Ha; simpl in H.
  - destruct (Dec.gt _ _) as [b|x] eqn:Hg; simpl in H; [discriminate|].
    injection H as <-. left. eapply DecFacts.compare_raises, Hg.
  - injection H as <-. eapply DecFacts.add_raises, Ha.
Qed.

(** C10: once the other preconditions hold, a negative resolved
    principal (such as a negative override) makes the builder raise the
    ValidationError of the principal, in the validation that precedes
    the construction of the tree; a principal that is not negative
    never triggers this error. *)
Theorem lote_negative_principal
    (fromisoformat : string -> option date) (today : date)
    (dados_nfe : gmap string (option string)) (uf_favorecida : option string)
    (receita : string) (o : lote_options) (v : lote_values) :
  lote_values_of dados_nfe uf_favorecida receita o = Ok v ->
  (forall s, valor_principal o = Some s -> lv_vprincipal v = _dec (Some s))
  /\ (is_negative (lv_vprincipal v) = true ->
      lote_checked dados_nfe uf_favorecida receita o = Raise (ValueError msg_principal)
      /\ build_lote_tree fromisoformat today dados_nfe uf_favorecida receita o
         = Raise (ValueError msg_principal)
      /\ build_lote_xml fromisoformat today dados_nfe uf_favorecida receita o
         = Raise (ValueError msg_principal))
  /\ (is_negative (lv_vprincipal v) = false ->
      build_lote_xml fromisoformat today dados_nfe uf_favorecida receita o
      <> Raise (ValueError msg_principal)).
Proof.
  intros Hv. split; [intros s; now apply (lote_principal_override _ _ _ _ _ _ Hv)|]. split.
  - intros Hneg.
    assert (Hc : lote_checked dados_nfe uf_favorecida receita o
                 = Raise (ValueError msg_principal)).
    { unfold lote_checked. rewrite Hv. simpl.
      rewrite DecFacts.ge_zero2 by (destruct (lv_vprincipal v); simpl in *; congruence).
      rewrite Hneg. reflexivity. }
    unfold build_lote_xml, build_lote_tree. rewrite Hc. auto.
  - intros Hneg. unfold build_lote_xml, build_lote_tree, lote_checked. rewrite Hv. simpl.
    destruct (Dec.ge (lv_vprincipal v) Dec.zero2) as [b|x] eqn:Hge; simpl.
    + apply DecFacts.ge_zero2_inv in Hge as [_ ->]. rewrite Hneg. simpl.
      destruct (lote_tree fromisoformat today dados_nfe o v) as [t|x] eqn:Ht; simpl;
        [discriminate|].
      apply lote_tree_raises in Ht as [-> | ->]; discriminate.
    + apply DecFacts.compare_raises in Hge as ->. discriminate.
Qed.

Lemma lote_negative_principal_witness :
  build_lote_xml fromisoformat_none (Date 2024 1 15) nfe_st_fcp (Some "SP") "100099"
    (options_principal "-5.00")
  = Raise (ValueError msg_principal).
Proof.
  assert (Hv : lote_values_of nfe_st_fcp (Some "SP") "100099" (options_principal "-5.00")
               = Ok {| lv_uf := "SP"; lv_receita := "100099";
                       lv_chave := "35200112345678000199550010000001231000001234";
                       lv_vprincipal := Finite true 500 (-2);
                       lv_vFCP_total := Finite false 250 (-2) |})
    by (vm_compute; reflexivity).
  destruct (lote_negative_principal fromisoformat_none (Date 2024 1 15) _ _ _ _ _ Hv)
    as (_ & H & _).
  apply H. reflexivity.
Defined.

(** ** Revenue code 999999 *)

Lemma is_zero_inv (d : Decimal) : is_zero d = true -> exists s e, d = Finite s 0 e.
Proof.
  destruct d as [s c e| |]; simpl; try discriminate.
  intros H. apply Z.eqb_eq in H as ->. eauto.
Qed.

Lemma gt_zero_of_zero (d : Decimal) : is_zero d = true -> Dec.gt d Dec.zero = Ok false.
Proof. intros H. apply is_zero_inv in H as (s & e & ->). reflexivity. Qed.

Lemma ge_zero2_of_zero (d : Decimal) : is_zero d = true -> Dec.ge d Dec.zero2 = Ok true.
Proof. intros H. apply is_zero_inv in H as (s & e & ->). reflexivity. Qed.

Lemma add_zeros_zero (a b : Decimal) :
  is_zero a = true -> is_zero b = true ->
  exists d, Dec.add a b = Ok d /\ is_zero d = true.
Proof.
  intros Ha Hb. destruct (DecFacts.add_zeros a b Ha Hb) as (s & e & H).
  rewrite H. eauto.
Qed.

(** a well-formed code is kept as it is *)
Lemma lote_receita_code6 (receita : string) (vICMSUF_nfe vST_nfe : Decimal) :
  is_code6 receita = true -> lote_receita receita vICMSUF_nfe vST_nfe = Ok receita.
Proof.
  unfold is_code6, lote_receita. intros H.
  apply andb_true_iff in H as [H1 H2]. rewrite H1, H2.
  unfold Str.isdigit in H1. apply andb_true_iff in H1 as [-> _]. reflexivity.
Qed.

(** a malformed code that cannot be inferred is refused *)
Lemma lote_receita_zero (receita : string) (vICMSUF_nfe vST_nfe : Decimal) :
  is_code6 receita = false ->
  is_zero vICMSUF_nfe = true -> is_zero vST_nfe = true ->
  lote_receita receita vICMSUF_nfe vST_nfe
  = Raise (ValueError "receita deve ter 6 dígitos ou ser dedutível pelos valores da NF-e").
Proof.
  unfold is_code6, lote_receita. intros H Hi Hs.
  assert (Hc : Str.truthy receita && Str.isdigit receita && (Str.len receita =? 6) = false).
  { destruct (Str.truthy receita); simpl; [exact H|reflexivity]. }
  rewrite Hc. simpl. rewrite (gt_zero_of_zero _ Hi). simpl.
  rewrite (gt_zero_of_zero _ Hs). reflexivity.
Qed.

(** C4, as the builder behaves: with favored state SP, revenue code
    999999 and an invoice whose four tax amounts are zero, the code is
    accepted as a well-formed 6-digit code; the builder raises a
    ValidationError only when the issuer has neither CNPJ nor CPF or the
    invoice key is empty, not numeric or longer than 44 characters, and
    otherwise returns a guide.  A code that is not six digits is refused
    with such amounts. *)
Theorem lote_999999_zero_amounts
    (fromisoformat : string -> option date) (today : date)
    (dados_nfe : gmap string (option string)) (o : lote_options) :
  is_zero (_dec (get dados_nfe "valor_vST")) = true ->
  is_zero (_dec (get dados_nfe "valor_vICMSUFDest")) = true ->
  is_zero (_dec (get dados_nfe "valor_vFCPUFDest")) = true ->
  is_zero (_dec (get dados_nfe "valor_vFCPST")) = true ->
  valor_principal o = None ->
  (ident_ok dados_nfe = true -> chave_ok dados_nfe = true ->
   exists xml,
     build_lote_xml fromisoformat today dados_nfe (Some "SP") "999999" o = Ok xml)
  /\ (ident_ok dados_nfe = false ->
      build_lote_xml fromisoformat today dados_nfe (Some "SP") "999999" o
      = Raise (ValueError "Emitente deve possuir CNPJ ou CPF"))
  /\ (ident_ok dados_nfe = true -> chave_ok dados_nfe = false ->
      build_lote_xml fromisoformat today dados_nfe (Some "SP") "999999" o
      = Raise (ValueError "documentoOrigem inválido"))
  /\ (forall receita, is_code6 receita = false ->
      build_lote_xml fromisoformat today dados_nfe (Some "SP") receita o
      = Raise (ValueError
                 "receita deve ter 6 dígitos ou ser dedutível pelos valores da NF-e")).
Proof.
  intros Hst Hicms Hfcpuf Hfcpst Ho.
  destruct (add_zeros_zero _ _ Hst Hicms) as (td & Htd & Ztd).
  destruct (add_zeros_zero _ _ Hfcpuf Hfcpst) as (fcp & Hfcp & Zfcp).
  destruct (add_zeros_zero _ _ Ztd Zfcp) as (tot & Htot & Ztot).
  unfold build_lote_xml, build_lote_tree, lote_checked, lote_values_of.
  change (Str.strip (or_empty (por (Some "SP") (get dados_nfe "uf_destinatario"))))
    with "SP".
  change (_require (Str.truthy "SP") "ufFavorecida é obrigatória") with (Ok tt).
  fold (ident_ok dados_nfe). fold (chave_ok dados_nfe).
  repeat split.
  - intros Hid Hch.
    rewrite lote_receita_code6 by reflexivity. simpl.
    rewrite Hid, Hch. simpl. rewrite Htd. simpl. rewrite Hfcp. simpl.
    unfold lote_principal. rewrite Ho. simpl.
    rewrite (ge_zero2_of_zero _ Ztd). simpl.
    unfold lote_tree. simpl. rewrite Htot. simpl.
    rewrite (gt_zero_of_zero _ Zfcp). simpl. eauto.
  - intros Hid. rewrite lote_receita_code6 by reflexivity. simpl.
    rewrite Hid. reflexivity.
  - intros Hid Hch. rewrite lote_receita_code6 by reflexivity. simpl.
    rewrite Hid, Hch. reflexivity.
  - intros receita Hr. simpl. rewrite (lote_receita_zero _ _ _ Hr Hicms Hst). reflexivity.
Qed.

Lemma lote_999999_zero_amounts_witness :
  exists xml,
    build_lote_xml fromisoformat_none (Date 2024 1 15) nfe_sem_valores (Some "SP") "999999"
      default_options = Ok xml.
Proof.
  destruct (lote_999999_zero_amounts fromisoformat_none (Date 2024 1 15) nfe_sem_valores
              default_options eq_refl eq_refl eq_refl eq_refl eq_refl) as (H & _).
  apply H; reflexivity.
Defined.

(** C4 as stated fails: a complete invoice without tax amounts, favored
    state SP and revenue code 999999 give a guide, not an error. *)
Lemma lote_999999_is_accepted :
  is_zero (_dec (get nfe_sem_valores "valor_vST")) = true
  /\ is_zero (_dec (get nfe_sem_valores "valor_vICMSUFDest")) = true
  /\ is_zero (_dec (get nfe_sem_valores "valor_vFCPUFDest")) = true
  /\ is_zero (_dec (get nfe_sem_valores "valor_vFCPST")) = true
  /\ exists lote,
       build_lote_tree fromisoformat_none (Date 2024 1 15) nfe_sem_valores (Some "SP")
         "999999" default_options = Ok lote
       /\ build_lote_xml fromisoformat_none (Date 2024 1 15) nfe_sem_valores (Some "SP")
            "999999" default_options = Ok (ET.tostring lote)
       /\ findall (has_tag "receita") lote = [ET.leaf "receita" [] (Some "999999")].
Proof.
  repeat (split; [reflexivity|]). eexists. split; [vm_compute; reflexivity|].
  split; vm_compute; reflexivity.
Qed.

(** ** The status consultation *)

(** C5, as the builder behaves: the status-consultation builder tests
    neither the environment identifier nor the receipt number and always
    returns; each of the three optional sub-elements is present, with
    text S, exactly when its flag is set, and absent otherwise. *)
Theorem consulta_resultado_flags
    (ambiente numero_recibo : string)
    (incluir_pdf incluir_arquivo_pagamento incluir_noticias : bool) :
  let cons := consulta_resultado_tree ambiente numero_recibo incluir_pdf
                incluir_arquivo_pagamento incluir_noticias in
  build_consulta_resultado_xml ambiente numero_recibo incluir_pdf
    incluir_arquivo_pagamento incluir_noticias = Ok (ET.tostring cons)
  /\ findall (has_tag "incluirPDFGuias") cons
     = (if incluir_pdf then [ET.leaf "incluirPDFGuias" [] (Some "S")] else [])
  /\ findall (has_tag "incluirArquivoPagamento") cons
     = (if incluir_arquivo_pagamento
        then [ET.leaf "incluirArquivoPagamento" [] (Some "S")] else [])
  /\ findall (has_tag "incluirNoticias") cons
     = (if incluir_noticias then [ET.leaf "incluirNoticias" [] (Some "S")] else []).
Proof.
  split; [reflexivity|].
  destruct incluir_pdf, incluir_arquivo_pagamento, incluir_noticias;
    repeat split; reflexivity.
Qed.

(** C5 as stated fails: an empty environment identifier and an empty
    receipt number give a document with two empty elements, not an
    error. *)
Lemma consulta_resultado_accepts_empty :
  build_consulta_resultado_xml "" "" true false false
  = Ok (ET.tostring
          (Elem (ET.ns "TConsLote_GNRE") [] None
             [ET.leaf "ambiente" [] (Some ""); ET.leaf "numeroRecibo" [] (Some "");
              ET.leaf "incluirPDFGuias" [] (Some "S")]))
  /\ forall msg, build_consulta_resultado_xml "" "" true false false
                 <> Raise (ValueError msg).
Proof. split; [reflexivity | discriminate]. Qed.

(** ** Municipality codes *)

(** the normalization of a municipality code, by the number of digits
    it holds *)
Lemma mun5_normalizes (cmun : option string) :
  let s := _digits cmun in
  (truthy cmun = false -> _mun5 cmun = None)
  /\ (truthy cmun = true -> Str.len s = 7 ->
      _mun5 cmun = Some (substring 2 5 s) /\ substring 2 5 s = Str.last 5 s)
  /\ (truthy cmun = true -> Str.len s = 5 -> _mun5 cmun = Some s)
  /\ (truthy cmun = true -> 5 < Str.len s -> _mun5 cmun = Some (Str.last 5 s))
  /\ (truthy cmun = true -> Str.len s < 5 -> _mun5 cmun = None).
Proof.
  intros s. unfold _mun5. fold s. repeat split.
  - intros ->. reflexivity.
  - rewrite H, H0. reflexivity.
  - unfold Str.last, Str.len in *.
    replace (String.length s) with 7%nat by lia. reflexivity.
  - intros -> H. rewrite H. reflexivity.
  - intros -> H. simpl.
    destruct (Z.eqb_spec (Str.len s) 7) as [H7|H7].
    + unfold Str.slice, Str.last, Str.len in *.
      replace (String.length s) with 7%nat by lia. reflexivity.
    + destruct (Z.eqb_spec (Str.len s) 5); [lia|].
      destruct (Z.gtb_spec (Str.len s) 5); [reflexivity|lia].
  - intros -> H. simpl.
    destruct (Z.eqb_spec (Str.len s) 7); [lia|].
    destruct (Z.eqb_spec (Str.len s) 5); [lia|].
    destruct (Z.gtb_spec (Str.len s) 5); [lia|reflexivity].
Qed.

Example mun5_samples :
  _mun5 (Some "3550308") = Some "50308" /\ _mun5 (Some "12345") = Some "12345"
  /\ _mun5 (Some "") = None /\ _mun5 None = None
  /\ _mun5 (Some "123456789") = Some "56789".
Proof. repeat split; reflexivity. Qed.

(** C8 at a municipality field of three digits: the code normalizes to
    absence, and the guide still carries a municipality element, with
    no text. *)
Theorem lote_municipio_without_code :
  _mun5 (get nfe_mun_curto "emitente_cod_mun") = None
  /\ exists lote,
       build_lote_tree fromisoformat_none (Date 2024 1 15) nfe_mun_curto (Some "SP") ""
         default_options = Ok lote
       /\ build_lote_xml fromisoformat_none (Date 2024 1 15) nfe_mun_curto (Some "SP") ""
            default_options = Ok (ET.tostring lote)
       /\ findall (has_tag "municipio") lote = [ET.leaf "municipio" [] None].
Proof.
  split; [reflexivity|]. eexists. split; [vm_compute; reflexivity|].
  split; vm_compute; reflexivity.
Qed.

(** ** The clock *)

Lemma truthy_append (a b : string) (c : ascii) : Str.truthy (a ++ String c b) = true.
Proof. destruct a; reflexivity. Qed.

Lemma isoformat_truthy (d : date) : Str.truthy (isoformat d) = true.
Proof. unfold isoformat. apply truthy_append. Qed.

(** with a due date given, or an issue date that the parser accepts,
    the due date does not depend on the clock *)
Lemma dtven_clock fromisoformat today1 today2 dados o :
  truthy (data_vencimento o) = true
  \/ _date_only fromisoformat (get dados "data_emissao") <> None ->
  dtven_of fromisoformat today1 dados o = dtven_of fromisoformat today2 dados o.
Proof.
  unfold dtven_of, por. destruct (truthy (data_vencimento o)); [reflexivity|].
  intros [H|H]; [discriminate|].
  unfold _date_only in *. destruct (negb _); [congruence|].
  destruct (fromisoformat _) as [d|]; [|congruence].
  simpl. rewrite isoformat_truthy. reflexivity.
Qed.

(** C9 as stated fails: with no due date and no issue date, the same
    arguments give two different guides on two different days. *)
Lemma lote_depends_on_clock :
  build_lote_xml fromisoformat_none (Date 2024 1 15) nfe_st_fcp (Some "SP") ""
    default_options
  <> build_lote_xml fromisoformat_none (Date 2024 1 16) nfe_st_fcp (Some "SP") ""
       default_options.
Proof.
  intros H. vm_compute in H. discriminate H.
Qed.

(** * Further properties of the submission guide *)

Module Guide.

Lemma list_if p (b : bool) (l1 l2 : list Element) :
  findall_list p (if b then l1 else l2)
  = if b then findall_list p l1 else findall_list p l2.
Proof. destruct b; reflexivity. Qed.

Lemma if_nil (b : bool) : (if b then @nil Element else []) = [].
Proof. destruct b; reflexivity. Qed.

(** decide the test [q] on every tag it is applied to *)
Ltac eval_tests q :=
  repeat match goal with
    | |- context [q ?t ?a] =>
        let b := eval vm_compute in (q t a) in change (q t a) with b
    end;
  cbv iota.

(** expand a selection over the tree of a guide, block by block,
    deciding the test on each element as it is met *)
Ltac expand_findall q :=
  try unfold lote_element;
  try (generalize (Str.strip (or_empty (por (doc_origem_tipo _) (Some "10")))); intro);
  unfold contribuinteEmitente, contribuinteDestinatario, camposExtras,
    cnpj_or_cpf, municipio, field, given, flag; cbv zeta;
  repeat (progress (rewrite ?Find.node, ?Find.leaf; eval_tests q;
                    rewrite ?Find.list_app, ?Find.list_cons, ?Find.list_nil, ?list_if)).

Ltac tidy := cbn [app]; repeat (rewrite ?app_nil_r, ?if_nil; cbn [app]).

(** select by a test on the head of the elements *)
Ltac select_by_head :=
  match goal with |- context [by_head ?f] => set (q := f) end;
  match goal with q := _ |- _ => expand_findall q end;
  tidy.

(** a tree that was built comes from validated values, a principal
    that is neither NaN nor negative, and a total that was added up *)
Lemma built fromisoformat today dados uf_favorecida receita o lote :
  build_lote_tree fromisoformat today dados uf_favorecida receita o = Ok lote ->
  exists v total,
    lote_values_of dados uf_favorecida receita o = Ok v
    /\ Dec.is_nan (lv_vprincipal v) = false
    /\ is_negative (lv_vprincipal v) = false
    /\ Dec.is_nan (lv_vFCP_total v) = false
    /\ Dec.add (lv_vprincipal v) (lv_vFCP_total v) = Ok total
    /\ lote = lote_element fromisoformat today dados o v total
                (is_positive (lv_vFCP_total v)).
Proof.
  unfold build_lote_tree. intros H. apply bind_Ok in H as (v & Hv & Ht).
  apply Lote.checked_inv in Hv as (Hv & Hn & Hneg).
  apply Lote.tree_inv in Ht as (total & Htot & Hf & ->).
  exists v, total. auto 10.
Qed.

(** [build_lote_xml] returns the serialization of the tree, and fails
    as the construction of the tree fails *)
Lemma xml_of_tree fromisoformat today dados uf_favorecida receita o :
  build_lote_xml fromisoformat today dados uf_favorecida receita o
  = match build_lote_tree fromisoformat today dados uf_favorecida receita o with
    | Ok lote => Ok (ET.tostring lote)
    | Raise e => Raise e
    end.
Proof. reflexivity. Qed.

End Guide.

(** ** The clock and the due date *)

(** C9, as the builder behaves: the submission-guide builder depends on
    the current date exactly through its due date.  When a due date is
    given, or the issue date of the invoice is one that the parser
    accepts, the result is the same whatever the clock reads; when
    neither is available, the due date written in the guide is the
    current date.  Nothing is stated here about other ambient state. *)
Theorem lote_clock_independent
    (fromisoformat : string -> option date) (today1 today2 : date)
    (dados_nfe : gmap string (option string)) (uf_favorecida : option string)
    (receita : string) (o : lote_options) :
  (truthy (data_vencimento o) = true
   \/ _date_only fromisoformat (get dados_nfe "data_emissao") <> None ->
   build_lote_xml fromisoformat today1 dados_nfe uf_favorecida receita o
   = build_lote_xml fromisoformat today2 dados_nfe uf_favorecida receita o)
  /\ (truthy (data_vencimento o) = false ->
      _date_only fromisoformat (get dados_nfe "data_emissao") = None ->
      forall lote,
        build_lote_tree fromisoformat today1 dados_nfe uf_favorecida receita o = Ok lote ->
        findall (has_tag "dataVencimento") lote
        = [ET.leaf "dataVencimento" [] (Some (isoformat today1))]).
Proof.
  split.
  - intros H.
    unfold build_lote_xml, build_lote_tree, lote_tree, lote_element. cbv zeta.
    rewrite (dtven_clock fromisoformat today1 today2 dados_nfe o H). reflexivity.
  - intros Hd Hn lote Hl.
    apply Guide.built in Hl as (v & total & _ & _ & _ & _ & _ & ->).
    assert (Hdt : dtven_of fromisoformat today1 dados_nfe o = isoformat today1).
    { unfold dtven_of, por. rewrite Hd, Hn. reflexivity. }
    unfold has_tag. Guide.select_by_head. rewrite Hdt. reflexivity.
Qed.

Lemma lote_clock_independent_witness :
  build_lote_xml fromisoformat_none (Date 2024 1 15) nfe_st_fcp (Some "SP") ""
    (options_vencimento "2024-02-10")
  = build_lote_xml fromisoformat_none (Date 2031 12 31) nfe_st_fcp (Some "SP") ""
      (options_vencimento "2024-02-10").
Proof.
  apply (proj1 (lote_clock_independent fromisoformat_none (Date 2024 1 15) (Date 2031 12 31)
                  nfe_st_fcp (Some "SP") "" (options_vencimento "2024-02-10"))).
  left. reflexivity.
Defined.

(** X1: the guide carries one ufFavorecida element; its text is the
    favored state given, or else the destination state of the invoice,
    trimmed, and it is never empty. *)
Theorem lote_uf_favorecida
    (fromisoformat : string -> option date) (today : date)
    (dados_nfe : gmap string (option string)) (uf_favorecida : option string)
    (receita : string) (o : lote_options) (lote : Element) :
  build_lote_tree fromisoformat today dados_nfe uf_favorecida receita o = Ok lote ->
  findall (has_tag "ufFavorecida") lote
  = [ET.leaf "ufFavorecida" [] (Some (uf_of dados_nfe uf_favorecida))]
  /\ uf_of dados_nfe uf_favorecida <> ""
  /\ (truthy uf_favorecida = true ->
      uf_of dados_nfe uf_favorecida = Str.strip (or_empty uf_favorecida))
  /\ (truthy uf_favorecida = false ->
      uf_of dados_nfe uf_favorecida
      = Str.strip (or_empty (get dados_nfe "uf_destinatario"))).
Proof.
  intros H. apply Guide.built in H as (v & total & Hv & _ & _ & _ & _ & ->).
  apply Lote.values_inv in Hv as (Huf & Hne & _).
  fold (uf_of dados_nfe uf_favorecida) in Huf. rewrite <- Huf.
  split; [|split; [now apply StrFacts.truthy_iff|]].
  - unfold has_tag. Guide.select_by_head. reflexivity.
  - rewrite Huf. unfold uf_of, por. split; intros ->; reflexivity.
Qed.

Lemma lote_receita_inv (receita : string) (vICMSUF_nfe vST_nfe : Decimal) (r : string) :
  lote_receita receita vICMSUF_nfe vST_nfe = Ok r ->
  (is_code6 receita = true /\ r = receita)
  \/ (is_code6 receita = false /\ r = "100102" /\ is_positive vICMSUF_nfe = true)
  \/ (is_code6 receita = false /\ r = "100099" /\ Dec.is_nan vICMSUF_nfe = false
      /\ is_positive vICMSUF_nfe = false /\ is_positive vST_nfe = true).
Proof.
  unfold lote_receita, is_code6.
  assert (Ht : Str.truthy receita && Str.isdigit receita && (Str.len receita =? 6)
               = Str.isdigit receita && (Str.len receita =? 6)).
  { unfold Str.isdigit. destruct (Str.truthy receita); reflexivity. }
  rewrite Ht. destruct (Str.isdigit receita && (Str.len receita =? 6)); simpl.
  - intros H. injection H as <-. auto.
  - intros H. apply bind_Ok in H as (difal & Hd & H).
    apply DecFacts.gt_zero_inv in Hd as [Hn ->].
    destruct (is_positive vICMSUF_nfe) eqn:Hp.
    + injection H as <-. auto.
    + apply bind_Ok in H as (st & Hs & H).
      apply DecFacts.gt_zero_inv in Hs as [_ ->].
      destruct (is_positive vST_nfe) eqn:Hps; [injection H as <-; auto 10|].
      discriminate H.
Qed.

Lemma lote_values_receita dados uf_favorecida receita o v :
  lote_values_of dados uf_favorecida receita o = Ok v ->
  lote_receita receita (_dec (get dados "valor_vICMSUFDest")) (_dec (get dados "valor_vST"))
  = Ok (lv_receita v).
Proof.
  unfold lote_values_of. intros H. inv_bind H. injection H as <-. simpl. assumption.
Qed.

(** X2: the guide carries one receita element, and its text is always
    a 6-digit code: the code given when it is well formed, else 100102
    when the ICMS-destination amount is positive, else 100099 when the
    ST amount is positive. *)
Theorem lote_receita_six_digits
    (fromisoformat : string -> option date) (today : date)
    (dados_nfe : gmap string (option string)) (uf_favorecida : option string)
    (receita : string) (o : lote_options) (lote : Element) :
  build_lote_tree fromisoformat today dados_nfe uf_favorecida receita o = Ok lote ->
  exists r,
    findall (has_tag "receita") lote = [ET.leaf "receita" [] (Some r)]
    /\ is_code6 r = true
    /\ (is_code6 receita = true -> r = receita)
    /\ (is_code6 receita = false ->
        (r = "100102" /\ is_positive (_dec (get dados_nfe "valor_vICMSUFDest")) = true)
        \/ (r = "100099"
            /\ is_positive (_dec (get dados_nfe "valor_vICMSUFDest")) = false
            /\ is_positive (_dec (get dados_nfe "valor_vST")) = true)).
Proof.
  intros H. apply Guide.built in H as (v & total & Hv & _ & _ & _ & _ & ->).
  pose proof (lote_values_receita _ _ _ _ _ Hv) as Hr.
  apply Lote.values_inv in Hv as (_ & _ & H6 & _).
  exists (lv_receita v). split; [|split; [exact H6|]].
  - unfold has_tag. Guide.select_by_head. reflexivity.
  - apply lote_receita_inv in Hr as [[Hc ->]|[(Hc & -> & Hp)|(Hc & -> & Hn & Hp & Hs)]];
      split; intros; try congruence; auto.
Qed.

Lemma lote_receita_six_digits_witness :
  exists lote,
    build_lote_tree fromisoformat_none (Date 2024 1 15) nfe_st_fcp (Some "SP") "abc"
      default_options = Ok lote
    /\ findall (has_tag "receita") lote = [ET.leaf "receita" [] (Some "100099")].
Proof.
  assert (Hx : exists lote,
             build_lote_tree fromisoformat_none (Date 2024 1 15) nfe_st_fcp (Some "SP") "abc"
               default_options = Ok lote)
    by (eexists; vm_compute; reflexivity).
  destruct Hx as [lote Hx]. exists lote. split; [exact Hx|].
  destruct (lote_receita_six_digits _ _ _ _ _ _ _ Hx) as (r & Hf & _ & _ & Hr).
  rewrite Hf. destruct (Hr eq_refl) as [[_ Hp]|[-> _]]; [|reflexivity].
  vm_compute in Hp. discriminate Hp.
Defined.

Lemma lote_uf_favorecida_witness :
  exists lote,
    build_lote_tree fromisoformat_none (Date 2024 1 15)
      (<["uf_destinatario" := Some " RJ "]> nfe_st_fcp) None "" default_options = Ok lote
    /\ findall (has_tag "ufFavorecida") lote = [ET.leaf "ufFavorecida" [] (Some "RJ")].
Proof.
  assert (Hx : exists lote,
             build_lote_tree fromisoformat_none (Date 2024 1 15)
               (<["uf_destinatario" := Some " RJ "]> nfe_st_fcp) None ""
               default_options = Ok lote)
    by (eexists; vm_compute; reflexivity).
  destruct Hx as [lote Hx]. exists lote. split; [exact Hx|].
  destruct (lote_uf_favorecida _ _ _ _ _ _ _ Hx) as (Hf & _). exact Hf.
Defined.

Lemma all_filter (p : ascii -> bool) (s : string) : Str.all p (Str.filter p s) = true.
Proof.
  induction s as [|c r IH]; simpl; [reflexivity|].
  destruct (p c) eqn:Hc; simpl; [rewrite Hc|]; assumption.
Qed.

(** X3: the guide carries one documentoOrigem element; its type is
    the one given, trimmed, or 10, and its text holds only digits: those
    of the invoice number, or the invoice key when the invoice has no
    number. *)
Theorem lote_documento_origem
    (fromisoformat : string -> option date) (today : date)
    (dados_nfe : gmap string (option string)) (uf_favorecida : option string)
    (receita : string) (o : lote_options) (lote : Element) :
  build_lote_tree fromisoformat today dados_nfe uf_favorecida receita o = Ok lote ->
  exists numero,
    findall (has_tag "documentoOrigem") lote
    = [ET.leaf "documentoOrigem" [("tipo", doc_tipo_of o)] (Some numero)]
    /\ digits_only numero = true
    /\ (truthy (get dados_nfe "numero_nf") = true ->
        numero = _digits (get dados_nfe "numero_nf"))
    /\ (truthy (get dados_nfe "numero_nf") = false -> numero = chave_of dados_nfe)
    /\ (truthy (doc_origem_tipo o) = false -> doc_tipo_of o = "10").
Proof.
  intros H. apply Guide.built in H as (v & total & Hv & _ & _ & _ & _ & ->).
  apply Lote.values_inv in Hv as (_ & _ & _ & _ & Hch & Hdig & _).
  fold (chave_of dados_nfe) in Hch.
  exists (_digits (por (get dados_nfe "numero_nf") (Some (lv_chave v)))).
  split; [|split].
  - unfold has_tag, doc_tipo_of. Guide.select_by_head. reflexivity.
  - unfold digits_only, _digits, digits_of. apply all_filter.
  - unfold por. repeat split.
    + intros ->. reflexivity.
    + intros ->. unfold _digits, or_empty. cbv beta iota. rewrite <- Hch.
      apply StrFacts.digits_of_isdigit. exact Hdig.
    + unfold doc_tipo_of, por. intros ->. reflexivity.
Qed.

Lemma lote_documento_origem_witness :
  exists lote,
    build_lote_tree fromisoformat_none (Date 2024 1 15)
      (<["numero_nf" := Some "000.123"]> nfe_st_fcp) (Some "SP") "" default_options
    = Ok lote
    /\ findall (has_tag "documentoOrigem") lote
       = [ET.leaf "documentoOrigem" [("tipo", "10")] (Some "000123")].
Proof.
  assert (Hx : exists lote,
             build_lote_tree fromisoformat_none (Date 2024 1 15)
               (<["numero_nf" := Some "000.123"]> nfe_st_fcp) (Some "SP") ""
               default_options = Ok lote)
    by (eexists; vm_compute; reflexivity).
  destruct Hx as [lote Hx]. exists lote. split; [exact Hx|].
  destruct (lote_documento_origem _ _ _ _ _ _ _ Hx) as (n & Hf & _ & Hn & _).
  rewrite Hf, (Hn eq_refl). reflexivity.
Defined.

(** X4: the guide carries one dataVencimento element: the due
    date given, else the date of the issue timestamp when the parser
    accepts it, else the current date; the month and the year of the
    reference period are the characters 5-6 and 0-3 of that string. *)
Theorem lote_data_vencimento
    (fromisoformat : string -> option date) (today : date)
    (dados_nfe : gmap string (option string)) (uf_favorecida : option string)
    (receita : string) (o : lote_options) (lote : Element) :
  build_lote_tree fromisoformat today dados_nfe uf_favorecida receita o = Ok lote ->
  let dtven := dtven_of fromisoformat today dados_nfe o in
  findall (has_tag "dataVencimento") lote = [ET.leaf "dataVencimento" [] (Some dtven)]
  /\ findall (has_tag "referencia") lote
     = [ET.node "referencia" []
          [ET.leaf "periodo" [] (Some "0");
           ET.leaf "mes" [] (Some (Str.slice 5 7 dtven));
           ET.leaf "ano" [] (Some (Str.slice 0 4 dtven))]]
  /\ (truthy (data_vencimento o) = true -> dtven = or_empty (data_vencimento o))
  /\ (truthy (data_vencimento o) = false ->
      forall d, fromisoformat (Str.replace_chr "Z" "+00:00"
                                 (or_empty (get dados_nfe "data_emissao"))) = Some d ->
                truthy (get dados_nfe "data_emissao") = true ->
                dtven = isoformat d)
  /\ (truthy (data_vencimento o) = false ->
      _date_only fromisoformat (get dados_nfe "data_emissao") = None ->
      dtven = isoformat today).
Proof.
  intros H dtven. apply Guide.built in H as (v & total & Hv & _ & _ & _ & _ & ->).
  split; [|split].
  - unfold has_tag. Guide.select_by_head. reflexivity.
  - unfold has_tag. Guide.select_by_head. reflexivity.
  - unfold dtven, dtven_of, por. repeat split.
    + intros ->. reflexivity.
    + intros -> d Hd Ht. unfold _date_only. rewrite Ht, Hd. simpl.
      rewrite isoformat_truthy. reflexivity.
    + intros -> ->. reflexivity.
Qed.

Lemma lote_data_vencimento_witness :
  exists lote,
    build_lote_tree fromisoformat_sample (Date 2031 12 31)
      (<["data_emissao" := Some "2024-03-09T10:00:00Z"]> nfe_st_fcp) (Some "SP") ""
      default_options = Ok lote
    /\ findall (has_tag "dataVencimento") lote
       = [ET.leaf "dataVencimento" [] (Some "2024-03-09")]
    /\ findall (has_tag "referencia") lote
       = [ET.node "referencia" []
            [ET.leaf "periodo" [] (Some "0"); ET.leaf "mes" [] (Some "03");
             ET.leaf "ano" [] (Some "2024")]].
Proof.
  assert (Hx : exists lote,
             build_lote_tree fromisoformat_sample (Date 2031 12 31)
               (<["data_emissao" := Some "2024-03-09T10:00:00Z"]> nfe_st_fcp) (Some "SP") ""
               default_options = Ok lote)
    by (eexists; vm_compute; reflexivity).
  destruct Hx as [lote Hx]. exists lote. split; [exact Hx|].
  destruct (lote_data_vencimento _ _ _ _ _ _ _ Hx) as (Hd & Hr & _).
  rewrite Hd, Hr. split; reflexivity.
Defined.

(** the value entries of a guide *)
Lemma lote_value_entries fromisoformat today dados o v total :
  let lote := lote_element fromisoformat today dados o v total
                (is_positive (lv_vFCP_total v)) in
  findall (is_valor "11") lote
  = [ET.leaf "valor" [("tipo", "11")] (Some (Dec.fmt2 (lv_vprincipal v)))]
  /\ findall (is_valor "21") lote
     = [ET.leaf "valor" [("tipo", "21")] (Some (Dec.fmt2 total))]
  /\ findall (has_tag "valorGNRE") lote
     = [ET.leaf "valorGNRE" [] (Some (Dec.fmt2 total))]
  /\ findall (has_tag "receita") lote = [ET.leaf "receita" [] (Some (lv_receita v))].
Proof.
  intros lote. subst lote. split; [|split; [|split]].
  - unfold is_valor. Guide.select_by_head. reflexivity.
  - unfold is_valor. Guide.select_by_head. reflexivity.
  - unfold has_tag. Guide.select_by_head. reflexivity.
  - unfold has_tag. Guide.select_by_head. reflexivity.
Qed.

(** X5: the guide carries the principal once (valor with tipo
    11), and its guide-level total, valorGNRE, reads the same as the
    total of the item (valor with tipo 21): the principal plus the FCP
    total, which is never added to the principal itself. *)
Theorem lote_totals_agree
    (fromisoformat : string -> option date) (today : date)
    (dados_nfe : gmap string (option string)) (uf_favorecida : option string)
    (receita : string) (o : lote_options) (lote : Element) :
  build_lote_tree fromisoformat today dados_nfe uf_favorecida receita o = Ok lote ->
  exists v total,
    lote_values_of dados_nfe uf_favorecida receita o = Ok v
    /\ Dec.add (lv_vprincipal v) (lv_vFCP_total v) = Ok total
    /\ findall (is_valor "11") lote
       = [ET.leaf "valor" [("tipo", "11")] (Some (Dec.fmt2 (lv_vprincipal v)))]
    /\ findall (is_valor "21") lote
       = [ET.leaf "valor" [("tipo", "21")] (Some (Dec.fmt2 total))]
    /\ findall (has_tag "valorGNRE") lote
       = [ET.leaf "valorGNRE" [] (Some (Dec.fmt2 total))]
    /\ is_negative (lv_vprincipal v) = false.
Proof.
  intros H. apply Guide.built in H as (v & total & Hv & _ & Hneg & _ & Ht & ->).
  exists v, total. repeat (split; [assumption|]).
  destruct (lote_value_entries fromisoformat today dados_nfe o v total)
    as (H11 & H21 & Hg & _).
  auto.
Qed.

Lemma lote_totals_agree_witness :
  exists lote,
    build_lote_tree fromisoformat_none (Date 2024 1 15) nfe_st_fcp (Some "SP") ""
      default_options = Ok lote
    /\ findall (is_valor "11") lote = [ET.leaf "valor" [("tipo", "11")] (Some "100.00")]
    /\ findall (has_tag "valorGNRE") lote = [ET.leaf "valorGNRE" [] (Some "102.50")].
Proof.
  assert (Hx : exists lote,
             build_lote_tree fromisoformat_none (Date 2024 1 15) nfe_st_fcp (Some "SP") ""
               default_options = Ok lote)
    by (eexists; vm_compute; reflexivity).
  destruct Hx as [lote Hx]. exists lote. split; [exact Hx|].
  destruct (lote_totals_agree _ _ _ _ _ _ _ Hx) as (v & total & Hv & Ht & H11 & _ & Hg & _).
  vm_compute in Hv. injection Hv as <-. vm_compute in Ht. injection Ht as <-.
  split; [exact H11 | exact Hg].
Defined.

(** X6: the elements detalhamentoReceita, produto and
    dataPagamento are present exactly when the argument is given and
    not empty, with the argument as text. *)
Theorem lote_optional_arguments
    (fromisoformat : string -> option date) (today : date)
    (dados_nfe : gmap string (option string)) (uf_favorecida : option string)
    (receita : string) (o : lote_options) (lote : Element) :
  build_lote_tree fromisoformat today dados_nfe uf_favorecida receita o = Ok lote ->
  findall (has_tag "detalhamentoReceita") lote
  = (if truthy (detalhamento_receita o)
     then [ET.leaf "detalhamentoReceita" [] (detalhamento_receita o)] else [])
  /\ findall (has_tag "produto") lote
     = (if truthy (produto o) then [ET.leaf "produto" [] (produto o)] else [])
  /\ findall (has_tag "dataPagamento") lote
     = (if truthy (data_pagamento o)
        then [ET.leaf "dataPagamento" [] (data_pagamento o)] else []).
Proof.
  intros H. apply Guide.built in H as (v & total & Hv & _ & _ & _ & _ & ->).
  repeat split; unfold has_tag; Guide.select_by_head; reflexivity.
Qed.

Lemma lote_optional_arguments_witness :
  exists lote,
    build_lote_tree fromisoformat_none (Date 2024 1 15) nfe_st_fcp (Some "SP") ""
      options_item = Ok lote
    /\ findall (has_tag "detalhamentoReceita") lote
       = [ET.leaf "detalhamentoReceita" [] (Some "000055")]
    /\ findall (has_tag "produto") lote = [ET.leaf "produto" [] (Some "89")]
    /\ findall (has_tag "dataPagamento") lote
       = [ET.leaf "dataPagamento" [] (Some "2024-02-12")].
Proof.
  assert (Hx : exists lote,
             build_lote_tree fromisoformat_none (Date 2024 1 15) nfe_st_fcp (Some "SP") ""
               options_item = Ok lote)
    by (eexists; vm_compute; reflexivity).
  destruct Hx as [lote Hx]. exists lote. split; [exact Hx|].
  destruct (lote_optional_arguments _ _ _ _ _ _ _ Hx) as (Hd & Hp & Hg).
  split; [exact Hd|]. split; [exact Hp | exact Hg].
Defined.

(** X7: the guide carries one contribuinteEmitente block, and
    the block identifies the issuer by exactly one element: the CNPJ
    when the invoice has one, else the CPF. *)
Theorem lote_emitente_identificacao
    (fromisoformat : string -> option date) (today : date)
    (dados_nfe : gmap string (option string)) (uf_favorecida : option string)
    (receita : string) (o : lote_options) (lote : Element) :
  build_lote_tree fromisoformat today dados_nfe uf_favorecida receita o = Ok lote ->
  exists emit,
    findall (has_tag "contribuinteEmitente") lote = [emit]
    /\ findall (has_tag2 "CNPJ" "CPF") emit
       = [if truthy (get dados_nfe "emitente_cnpj")
          then ET.leaf "CNPJ" [] (get dados_nfe "emitente_cnpj")
          else ET.leaf "CPF" [] (get dados_nfe "emitente_cpf")]
    /\ (truthy (get dados_nfe "emitente_cnpj") = false ->
        truthy (get dados_nfe "emitente_cpf") = true).
Proof.
  intros H. apply Guide.built in H as (v & total & Hv & _ & _ & _ & _ & ->).
  apply Lote.values_inv in Hv as (_ & _ & _ & Hid & _).
  exists (contribuinteEmitente dados_nfe (lv_uf v) o). split; [|split].
  - unfold has_tag. Guide.select_by_head. reflexivity.
  - unfold has_tag2. Guide.select_by_head.
    destruct (truthy (get dados_nfe "emitente_cnpj")); simpl in *;
      [|rewrite Hid]; reflexivity.
  - intros Hc. rewrite Hc in Hid. exact Hid.
Qed.

Lemma lote_emitente_identificacao_witness :
  exists lote emit,
    build_lote_tree fromisoformat_none (Date 2024 1 15)
      (<["emitente_cpf" := Some "12345678901"]> nfe_st_fcp) (Some "SP") ""
      default_options = Ok lote
    /\ findall (has_tag "contribuinteEmitente") lote = [emit]
    /\ findall (has_tag2 "CNPJ" "CPF") emit = [ET.leaf "CNPJ" [] (Some "12345678000199")].
Proof.
  assert (Hx : exists lote,
             build_lote_tree fromisoformat_none (Date 2024 1 15)
               (<["emitente_cpf" := Some "12345678901"]> nfe_st_fcp) (Some "SP") ""
               default_options = Ok lote)
    by (eexists; vm_compute; reflexivity).
  destruct Hx as [lote Hx]. exists lote.
  destruct (lote_emitente_identificacao _ _ _ _ _ _ _ Hx) as (emit & He & Hi & _).
  exists emit. split; [exact Hx|]. split; [exact He|]. exact Hi.
Defined.

(** X8: the state registration of the issuer (IE) is written only
    when the invoice has one and the issuer state of the invoice, as it
    is stored, equals the favored state of the guide. *)
Theorem lote_ie
    (fromisoformat : string -> option date) (today : date)
    (dados_nfe : gmap string (option string)) (uf_favorecida : option string)
    (receita : string) (o : lote_options) (lote : Element) :
  build_lote_tree fromisoformat today dados_nfe uf_favorecida receita o = Ok lote ->
  (truthy (get dados_nfe "emitente_ie") = true ->
   get dados_nfe "uf_emitente" = Some (uf_of dados_nfe uf_favorecida) ->
   findall (has_tag "IE") lote = [ET.leaf "IE" [] (get dados_nfe "emitente_ie")])
  /\ (get dados_nfe "uf_emitente" <> Some (uf_of dados_nfe uf_favorecida) ->
      findall (has_tag "IE") lote = [])
  /\ (truthy (get dados_nfe "emitente_ie") = false -> findall (has_tag "IE") lote = []).
Proof.
  intros H. apply Guide.built in H as (v & total & Hv & _ & _ & _ & _ & ->).
  apply Lote.values_inv in Hv as (Huf & _).
  fold (uf_of dados_nfe uf_favorecida) in Huf. rewrite <- Huf.
  assert (Hsel : findall (has_tag "IE")
                   (lote_element fromisoformat today dados_nfe o v total
                      (is_positive (lv_vFCP_total v)))
                 = if truthy (get dados_nfe "emitente_ie")
                      && bool_decide (get dados_nfe "uf_emitente" = Some (lv_uf v))
                   then [ET.leaf "IE" [] (get dados_nfe "emitente_ie")] else []).
  { unfold has_tag. Guide.select_by_head. reflexivity. }
  rewrite Hsel. repeat split.
  - intros -> He. rewrite bool_decide_eq_true_2 by exact He. reflexivity.
  - intros He. rewrite bool_decide_eq_false_2 by exact He.
    rewrite andb_false_r. reflexivity.
  - intros ->. reflexivity.
Qed.

Lemma lote_ie_witness :
  exists lote,
    build_lote_tree fromisoformat_none (Date 2024 1 15)
      (<["emitente_ie" := Some "110042490114"]> (<["uf_emitente" := Some "SP"]> nfe_st_fcp))
      (Some "SP") "" default_options = Ok lote
    /\ findall (has_tag "IE") lote = [ET.leaf "IE" [] (Some "110042490114")].
Proof.
  assert (Hx : exists lote,
             build_lote_tree fromisoformat_none (Date 2024 1 15)
               (<["emitente_ie" := Some "110042490114"]>
                  (<["uf_emitente" := Some "SP"]> nfe_st_fcp))
               (Some "SP") "" default_options = Ok lote)
    by (eexists; vm_compute; reflexivity).
  destruct Hx as [lote Hx]. exists lote. split; [exact Hx|].
  destruct (lote_ie _ _ _ _ _ _ _ Hx) as (H & _). apply H; reflexivity.
Defined.

(** X9: the recipient block is written exactly when the invoice
    has a CNPJ or a CPF of the recipient, and then identifies the
    recipient by exactly one element, the CNPJ when there is one. *)
Theorem lote_destinatario
    (fromisoformat : string -> option date) (today : date)
    (dados_nfe : gmap string (option string)) (uf_favorecida : option string)
    (receita : string) (o : lote_options) (lote : Element) :
  build_lote_tree fromisoformat today dados_nfe uf_favorecida receita o = Ok lote ->
  (truthy (get dados_nfe "destinatario_cnpj") || truthy (get dados_nfe "destinatario_cpf")
   = false ->
   findall (has_tag "contribuinteDestinatario") lote = [])
  /\ (truthy (get dados_nfe "destinatario_cnpj") || truthy (get dados_nfe "destinatario_cpf")
      = true ->
      exists dest,
        findall (has_tag "contribuinteDestinatario") lote = [dest]
        /\ findall (has_tag2 "CNPJ" "CPF") dest
           = [if truthy (get dados_nfe "destinatario_cnpj")
              then ET.leaf "CNPJ" [] (get dados_nfe "destinatario_cnpj")
              else ET.leaf "CPF" [] (get dados_nfe "destinatario_cpf")]).
Proof.
  intros H. apply Guide.built in H as (v & total & Hv & _ & _ & _ & _ & ->).
  assert (Hsel : findall (has_tag "contribuinteDestinatario")
                   (lote_element fromisoformat today dados_nfe o v total
                      (is_positive (lv_vFCP_total v)))
                 = contribuinteDestinatario dados_nfe).
  { unfold has_tag. Guide.select_by_head.
    destruct (truthy (get dados_nfe "destinatario_cnpj")
              || truthy (get dados_nfe "destinatario_cpf")); reflexivity. }
  rewrite Hsel. unfold contribuinteDestinatario at 1 2. split.
  - intros ->. reflexivity.
  - intros Hid. rewrite Hid. eexists. split; [reflexivity|].
    unfold has_tag2. Guide.select_by_head.
    destruct (truthy (get dados_nfe "destinatario_cnpj")); simpl in *;
      [|rewrite Hid]; reflexivity.
Qed.

Lemma lote_destinatario_witness :
  exists lote dest,
    build_lote_tree fromisoformat_none (Date 2024 1 15)
      (<["destinatario_cpf" := Some "12345678901"]> nfe_st_fcp) (Some "SP") ""
      default_options = Ok lote
    /\ findall (has_tag "contribuinteDestinatario") lote = [dest]
    /\ findall (has_tag2 "CNPJ" "CPF") dest = [ET.leaf "CPF" [] (Some "12345678901")].
Proof.
  assert (Hx : exists lote,
             build_lote_tree fromisoformat_none (Date 2024 1 15)
               (<["destinatario_cpf" := Some "12345678901"]> nfe_st_fcp) (Some "SP") ""
               default_options = Ok lote)
    by (eexists; vm_compute; reflexivity).
  destruct Hx as [lote Hx]. exists lote.
  destruct (lote_destinatario _ _ _ _ _ _ _ Hx) as (_ & H).
  destruct (H eq_refl) as (dest & Hd & Hi).
  exists dest. split; [exact Hx|]. split; [exact Hd | exact Hi].
Defined.

(** X10: the legal name in the issuer block of the guide is the
    override when one is given, else the name on the invoice, else it is
    left out. *)
Theorem lote_razao_social
    (fromisoformat : string -> option date) (today : date)
    (dados_nfe : gmap string (option string)) (uf_favorecida : option string)
    (receita : string) (o : lote_options) (lote : Element) :
  build_lote_tree fromisoformat today dados_nfe uf_favorecida receita o = Ok lote ->
  exists emit,
    findall (has_tag "contribuinteEmitente") lote = [emit]
    /\ findall (has_tag "razaoSocial") emit
       = if truthy (razao_social_emitente o)
         then [ET.leaf "razaoSocial" [] (razao_social_emitente o)]
         else if truthy (get dados_nfe "emitente_nome")
              then [ET.leaf "razaoSocial" [] (get dados_nfe "emitente_nome")]
              else [].
Proof.
  intros H. apply Guide.built in H as (v & total & Hv & _ & _ & _ & _ & ->).
  exists (contribuinteEmitente dados_nfe (lv_uf v) o). split.
  - unfold has_tag. Guide.select_by_head. reflexivity.
  - unfold has_tag. Guide.select_by_head.
    destruct (truthy (razao_social_emitente o)); reflexivity.
Qed.

Lemma lote_razao_social_witness :
  exists lote emit,
    build_lote_tree fromisoformat_none (Date 2024 1 15)
      (<["emitente_nome" := Some "ACME LTDA"]> nfe_st_fcp) (Some "SP") ""
      default_options = Ok lote
    /\ findall (has_tag "contribuinteEmitente") lote = [emit]
    /\ findall (has_tag "razaoSocial") emit = [ET.leaf "razaoSocial" [] (Some "ACME LTDA")].
Proof.
  assert (Hx : exists lote,
             build_lote_tree fromisoformat_none (Date 2024 1 15)
               (<["emitente_nome" := Some "ACME LTDA"]> nfe_st_fcp) (Some "SP") ""
               default_options = Ok lote)
    by (eexists; vm_compute; reflexivity).
  destruct Hx as [lote Hx]. exists lote.
  destruct (lote_razao_social _ _ _ _ _ _ _ Hx) as (emit & He & Hr).
  exists emit. split; [exact Hx|]. split; [exact He | exact Hr].
Defined.

(** * Errors of the submission guide *)

Lemma code6_test (r : string) :
  Str.truthy r && (Str.len r =? 6) && Str.isdigit r = is_code6 r.
Proof.
  unfold is_code6, Str.isdigit.
  destruct (Str.truthy r), (Str.len r =? 6), (Str.all Str.chr_isdigit r); reflexivity.
Qed.

Lemma code6_test_receita (r : string) :
  Str.truthy r && Str.isdigit r && (Str.len r =? 6) = is_code6 r.
Proof.
  unfold is_code6, Str.isdigit.
  destruct (Str.truthy r), (Str.len r =? 6), (Str.all Str.chr_isdigit r); reflexivity.
Qed.

Lemma lote_receita_Ok_code6 receita a b r :
  lote_receita receita a b = Ok r -> is_code6 r = true.
Proof.
  intros H.
  apply lote_receita_inv in H as [[Hc ->]|[(_ & -> & _)|(_ & -> & _)]];
    [exact Hc | reflexivity | reflexivity].
Qed.

Lemma lote_receita_raises receita a b e :
  lote_receita receita a b = Raise e ->
  e = InvalidOperation \/ e = ValueError msg_receita.
Proof.
  unfold lote_receita.
  destruct (negb _); [|discriminate].
  destruct (Dec.gt a Dec.zero) as [difal|x] eqn:Ha; simpl.
  - destruct difal; [discriminate|].
    destruct (Dec.gt b Dec.zero) as [st|x] eqn:Hb; simpl.
    + destruct st; [discriminate|]. intros H. injection H as <-. auto.
    + intros H. injection H as <-. left. eapply DecFacts.compare_raises, Hb.
  - intros H. injection H as <-. left. eapply DecFacts.compare_raises, Ha.
Qed.

(** the validation, step by step *)
Lemma lote_values_steps dados uf_favorecida receita o :
  lote_values_of dados uf_favorecida receita o
  = if negb (Str.truthy (uf_of dados uf_favorecida)) then Raise (ValueError msg_uf)
    else
      match lote_receita receita (_dec (get dados "valor_vICMSUFDest"))
              (_dec (get dados "valor_vST")) with
      | Raise e => Raise e
      | Ok r =>
          if negb (ident_ok dados) then Raise (ValueError msg_emitente)
          else if negb (chave_ok dados) then Raise (ValueError msg_documento)
          else
            let* total_default :=
              Dec.add (_dec (get dados "valor_vST")) (_dec (get dados "valor_vICMSUFDest")) in
            let* vFCP_total :=
              Dec.add (_dec (get dados "valor_vFCPUFDest")) (_dec (get dados "valor_vFCPST")) in
            Ok {| lv_uf := uf_of dados uf_favorecida; lv_receita := r;
                  lv_chave := chave_of dados;
                  lv_vprincipal :=
                    lote_principal r (valor_principal o) (_dec (get dados "valor_vST"))
                      (_dec (get dados "valor_vICMSUFDest")) total_default;
                  lv_vFCP_total := vFCP_total |}
      end.
Proof.
  unfold lote_values_of, chave_ok. cbv zeta.
  fold (uf_of dados uf_favorecida) (chave_of dados). fold (ident_ok dados).
  destruct (Str.truthy (uf_of dados uf_favorecida)); [|reflexivity]. simpl.
  destruct (lote_receita _ _ _) as [r|e] eqn:Hr; [|reflexivity]. simpl.
  rewrite code6_test, (lote_receita_Ok_code6 _ _ _ _ Hr). simpl.
  destruct (ident_ok dados); [|reflexivity]. simpl.
  destruct (Str.truthy (chave_of dados) && _ && _ && _); reflexivity.
Qed.

(** X11: a ValidationError of the submission-guide builder
    carries one of five messages; the second test on the revenue code
    can never fail, so its message is never raised. *)
Theorem lote_error_messages
    (fromisoformat : string -> option date) (today : date)
    (dados_nfe : gmap string (option string)) (uf_favorecida : option string)
    (receita : string) (o : lote_options) (msg : string) :
  build_lote_xml fromisoformat today dados_nfe uf_favorecida receita o
  = Raise (ValueError msg) ->
  In msg [msg_uf; msg_receita; msg_emitente; msg_documento; msg_principal]
  /\ msg <> msg_receita6.
Proof.
  intros H.
  assert (Hin : In msg [msg_uf; msg_receita; msg_emitente; msg_documento; msg_principal]).
  { rewrite Guide.xml_of_tree in H. unfold build_lote_tree, lote_checked in H.
    rewrite lote_values_steps in H.
    destruct (negb (Str.truthy _)); [injection H as <-; simpl; auto|].
    destruct (lote_receita _ _ _) as [r|e] eqn:Hr.
    - destruct (negb (ident_ok _)); [injection H as <-; simpl; auto|].
      destruct (negb (chave_ok _)); [injection H as <-; simpl; auto|].
      destruct (Dec.add _ _) as [td|e] eqn:Htd; simpl in H;
        [|apply DecFacts.add_raises in Htd as [-> | ->]; discriminate].
      destruct (Dec.add (_dec (get dados_nfe "valor_vFCPUFDest")) _) as [fcp|e] eqn:Hf;
        simpl in H; [|apply DecFacts.add_raises in Hf as [-> | ->]; discriminate].
      destruct (Dec.ge _ _) as [nonneg|e] eqn:Hge; simpl in H;
        [|apply DecFacts.compare_raises in Hge as ->; discriminate].
      destruct nonneg; simpl in H; [|injection H as <-; simpl; auto 10].
      match type of H with
      | match ?t with _ => _ end = _ => destruct t as [lote|e] eqn:Ht
      end; [discriminate|].
      apply lote_tree_raises in Ht as [-> | ->]; discriminate.
    - simpl in H. apply lote_receita_raises in Hr as [-> | ->];
        [discriminate|injection H as <-; simpl; auto]. }
  split; [exact Hin|].
  simpl in Hin. intros ->.
  destruct Hin as [H0|[H0|[H0|[H0|[H0|[]]]]]]; discriminate H0.
Qed.

Lemma lote_error_messages_witness :
  In msg_emitente [msg_uf; msg_receita; msg_emitente; msg_documento; msg_principal].
Proof.
  assert (Hx : build_lote_xml fromisoformat_none (Date 2024 1 15) nfe_rj_sp None ""
                 default_options = Raise (ValueError msg_emitente))
    by (vm_compute; reflexivity).
  destruct (lote_error_messages _ _ _ _ _ _ _ Hx) as [H _]. exact H.
Defined.

(** X12: when no favored state is given and the invoice has no
    destination state (or only blanks), the builder raises its first
    ValidationError, whatever the other arguments are. *)
Theorem lote_requires_uf
    (fromisoformat : string -> option date) (today : date)
    (dados_nfe : gmap string (option string)) (uf_favorecida : option string)
    (receita : string) (o : lote_options) :
  uf_of dados_nfe uf_favorecida = "" ->
  build_lote_xml fromisoformat today dados_nfe uf_favorecida receita o
  = Raise (ValueError msg_uf).
Proof.
  intros H. rewrite Guide.xml_of_tree. unfold build_lote_tree, lote_checked.
  rewrite lote_values_steps, H. reflexivity.
Qed.

Lemma lote_requires_uf_witness :
  build_lote_xml fromisoformat_none (Date 2024 1 15)
    (<["uf_destinatario" := Some "  "]> nfe_st_fcp) None "100099" default_options
  = Raise (ValueError msg_uf).
Proof. apply lote_requires_uf. reflexivity. Defined.

(** X13: with a favored state, a revenue code that is not six
    digits and neither an ICMS-destination amount nor an ST amount
    above zero, the builder raises the ValidationError of the revenue
    code, before it looks at the issuer or at the invoice key. *)
Theorem lote_receita_not_inferable
    (fromisoformat : string -> option date) (today : date)
    (dados_nfe : gmap string (option string)) (uf_favorecida : option string)
    (receita : string) (o : lote_options) :
  uf_of dados_nfe uf_favorecida <> "" ->
  is_code6 receita = false ->
  Dec.is_nan (_dec (get dados_nfe "valor_vICMSUFDest")) = false ->
  is_positive (_dec (get dados_nfe "valor_vICMSUFDest")) = false ->
  Dec.is_nan (_dec (get dados_nfe "valor_vST")) = false ->
  is_positive (_dec (get dados_nfe "valor_vST")) = false ->
  build_lote_xml fromisoformat today dados_nfe uf_favorecida receita o
  = Raise (ValueError msg_receita).
Proof.
  intros Huf Hr Hni Hpi Hns Hps. rewrite Guide.xml_of_tree.
  unfold build_lote_tree, lote_checked. rewrite lote_values_steps.
  apply StrFacts.truthy_iff in Huf. rewrite Huf. simpl.
  unfold lote_receita. rewrite code6_test_receita, Hr. simpl.
  rewrite (DecFacts.gt_zero _ Hni), Hpi. simpl.
  rewrite (DecFacts.gt_zero _ Hns), Hps. reflexivity.
Qed.

Lemma lote_receita_not_inferable_witness :
  build_lote_xml fromisoformat_none (Date 2024 1 15) nfe_sem_valores (Some "SP") "99999"
    default_options
  = Raise (ValueError msg_receita).
Proof. apply lote_receita_not_inferable; (reflexivity || discriminate). Defined.

Lemma truthy_len (s : string) : Str.truthy s = true -> 1 <= Str.len s.
Proof. destruct s; [discriminate|]. unfold Str.len. simpl. lia. Qed.

Lemma chave_ok_iff (dados : gmap string (option string)) :
  chave_ok dados = true
  <-> Str.isdigit (chave_of dados) = true /\ Str.len (chave_of dados) <= 44.
Proof.
  unfold chave_ok. cbv zeta. fold (chave_of dados).
  rewrite !andb_true_iff, Z.leb_le, Z.leb_le. split.
  - intros [[[_ Hd] _] Hl]. auto.
  - intros [Hd Hl]. pose proof Hd as Ht. unfold Str.isdigit in Ht.
    apply andb_true_iff in Ht as [Ht _]. auto using truthy_len.
Qed.

(** X14: once the favored state and the revenue code are
    settled, the builder raises a ValidationError when the issuer has
    neither CNPJ nor CPF, and then when the invoice key, trimmed, is
    not a string of 1 to 44 digits; a numeric key shorter than 44
    digits passes. *)
Theorem lote_requires_issuer_and_key
    (fromisoformat : string -> option date) (today : date)
    (dados_nfe : gmap string (option string)) (uf_favorecida : option string)
    (receita : string) (o : lote_options) (r : string) :
  uf_of dados_nfe uf_favorecida <> "" ->
  lote_receita receita (_dec (get dados_nfe "valor_vICMSUFDest"))
    (_dec (get dados_nfe "valor_vST")) = Ok r ->
  (ident_ok dados_nfe = false ->
   build_lote_xml fromisoformat today dados_nfe uf_favorecida receita o
   = Raise (ValueError msg_emitente))
  /\ (ident_ok dados_nfe = true ->
      ~ (Str.isdigit (chave_of dados_nfe) = true /\ Str.len (chave_of dados_nfe) <= 44) ->
      build_lote_xml fromisoformat today dados_nfe uf_favorecida receita o
      = Raise (ValueError msg_documento))
  /\ (ident_ok dados_nfe = true ->
      Str.isdigit (chave_of dados_nfe) = true -> Str.len (chave_of dados_nfe) <= 44 ->
      forall msg,
        build_lote_xml fromisoformat today dados_nfe uf_favorecida receita o
        = Raise (ValueError msg) -> msg = msg_principal).
Proof.
  intros Huf Hr. apply StrFacts.truthy_iff in Huf.
  rewrite Guide.xml_of_tree. unfold build_lote_tree, lote_checked.
  rewrite lote_values_steps, Huf, Hr. simpl. repeat split.
  - intros ->. reflexivity.
  - intros -> Hk. rewrite <- chave_ok_iff in Hk.
    destruct (chave_ok dados_nfe); [contradiction Hk; reflexivity|reflexivity].
  - intros -> Hd Hl msg. rewrite (proj2 (chave_ok_iff dados_nfe)) by auto. simpl.
    destruct (Dec.add _ _) as [td|e] eqn:Htd; simpl;
      [|apply DecFacts.add_raises in Htd as [-> | ->]; discriminate].
    destruct (Dec.add (_dec (get dados_nfe "valor_vFCPUFDest")) _) as [fcp|e] eqn:Hf;
      simpl; [|apply DecFacts.add_raises in Hf as [-> | ->]; discriminate].
    destruct (Dec.ge _ _) as [nonneg|e] eqn:Hge; simpl;
      [|apply DecFacts.compare_raises in Hge as ->; discriminate].
    destruct nonneg; simpl; [|intros H; injection H as <-; reflexivity].
    match goal with
    | |- match ?t with _ => _ end = _ -> _ => destruct t as [lote|e] eqn:Ht
    end; [discriminate|].
    apply lote_tree_raises in Ht as [-> | ->]; discriminate.
Qed.

Lemma lote_requires_issuer_and_key_witness :
  build_lote_xml fromisoformat_none (Date 2024 1 15)
    (<["chave_nfe" := Some "352001123456780001995500100000012310000012345"]> nfe_st_fcp)
    (Some "SP") "100099" default_options
  = Raise (ValueError msg_documento).
Proof.
  refine (proj1 (proj2 (lote_requires_issuer_and_key fromisoformat_none (Date 2024 1 15)
                          _ (Some "SP") "100099" default_options "100099" _ _)) _ _).
  - discriminate.
  - reflexivity.
  - reflexivity.
  - intros [_ H]. vm_compute in H. apply H. reflexivity.
Defined.

(** X15: a principal override that parses to a NaN passes the
    validation of the arguments and then makes the builder raise the
    decimal signal InvalidOperation, not a ValidationError. *)
Theorem lote_principal_nan
    (fromisoformat : string -> option date) (today : date)
    (dados_nfe : gmap string (option string)) (uf_favorecida : option string)
    (receita : string) (o : lote_options) (v : lote_values) (s : string) :
  lote_values_of dados_nfe uf_favorecida receita o = Ok v ->
  valor_principal o = Some s ->
  Dec.is_nan (_dec (Some s)) = true ->
  build_lote_xml fromisoformat today dados_nfe uf_favorecida receita o
  = Raise InvalidOperation.
Proof.
  intros Hv Ho Hn. rewrite Guide.xml_of_tree. unfold build_lote_tree, lote_checked.
  rewrite Hv. simpl. rewrite (lote_principal_override _ _ _ _ _ _ Hv Ho).
  unfold Dec.ge, Dec.compare_with. rewrite Hn. reflexivity.
Qed.

Lemma lote_principal_nan_witness :
  build_lote_xml fromisoformat_none (Date 2024 1 15) nfe_st_fcp (Some "SP") "100099"
    (options_principal "NaN")
  = Raise InvalidOperation.
Proof.
  assert (Hv : exists v, lote_values_of nfe_st_fcp (Some "SP") "100099"
                           (options_principal "NaN") = Ok v)
    by (eexists; vm_compute; reflexivity).
  destruct Hv as [v Hv].
  apply (lote_principal_nan _ _ _ _ _ _ v "NaN" Hv); reflexivity.
Defined.

(** * Further properties of the evaluator *)

Lemma resolve_receita_inv (receita : option string) (vICMSUF_nfe vST_nfe : Decimal)
    (r : string) :
  resolve_receita receita vICMSUF_nfe vST_nfe = Ok r ->
  (is_code6 (or_empty receita) = true /\ r = or_empty receita)
  \/ (is_code6 (or_empty receita) = false /\ Dec.is_nan vICMSUF_nfe = false
      /\ ((is_positive vICMSUF_nfe = true /\ r = "100102")
          \/ (is_positive vICMSUF_nfe = false /\ Dec.is_nan vST_nfe = false
              /\ ((is_positive vST_nfe = true /\ r = "100099")
                  \/ (is_positive vST_nfe = false /\ r = or_empty receita))))).
Proof.
  unfold resolve_receita. destruct (is_code6 (or_empty receita)); simpl.
  - intros H. injection H as <-. auto.
  - intros H. apply bind_Ok in H as (difal & Hd & H).
    apply DecFacts.gt_zero_inv in Hd as [Hn ->].
    destruct (is_positive vICMSUF_nfe); [injection H as <-; auto 10|].
    apply bind_Ok in H as (st & Hs & H).
    apply DecFacts.gt_zero_inv in Hs as [Hns ->].
    destruct (is_positive vST_nfe); injection H as <-; auto 20.
Qed.

Lemma need_values_inv dados receita valor_principal v :
  need_values_of dados receita valor_principal = Ok v ->
  resolve_receita receita (_dec (get dados "valor_vICMSUFDest"))
    (_dec (get dados "valor_vST")) = Ok (nv_r v)
  /\ select_principal (nv_r v) valor_principal (_dec (get dados "valor_vST"))
       (_dec (get dados "valor_vICMSUFDest")) = Ok (nv_vprincipal v)
  /\ Dec.add (_dec (get dados "valor_vFCPUFDest")) (_dec (get dados "valor_vFCPST"))
     = Ok (nv_vFCP_total v)
  /\ Dec.add (nv_vprincipal v) (nv_vFCP_total v) = Ok (nv_v_total_item v).
Proof.
  unfold need_values_of. intros H. inv_bind H. injection H as <-. simpl. auto.
Qed.

(** what the evaluator returns, from the values and the flag *)
Lemma evaluate_inv dados receita valor_principal res :
  evaluate_gnre_need dados receita valor_principal = Ok res ->
  exists v manual,
    need_values_of dados receita valor_principal = Ok v
    /\ manual_of (uf_dest_of dados) (uf_emit_of dados) (nv_v_total_item v) = Ok manual
    /\ Dec.is_nan (nv_v_total_item v) = false
    /\ res = {| Need.receita :=
                  if manual then None
                  else if Str.truthy (nv_r v) then Some (nv_r v) else None;
                Need.valor_principal := Dec.fmt2 (nv_vprincipal v);
                Need.valor_fcp := Dec.fmt2 (nv_vFCP_total v);
                Need.valor_total_item := Dec.fmt2 (nv_v_total_item v);
                Need.necessario :=
                  if manual then "M"
                  else if is_positive (nv_v_total_item v) then "S" else "N" |}.
Proof.
  unfold evaluate_gnre_need. intros H.
  apply bind_Ok in H as (v & Hv & H). apply bind_Ok in H as (manual & Hm & H).
  apply bind_Ok in H as (nec & Hn & H). injection H as <-.
  exists v, manual. split; [exact Hv|]. split; [exact Hm|].
  destruct manual.
  - injection Hn as <-. split; [|reflexivity].
    unfold manual_of in Hm. destruct (_ && _ && _); [|discriminate].
    now apply DecFacts.gt_zero_inv in Hm as [? _].
  - apply bind_Ok in Hn as (needed & Hg & Hn). injection Hn as <-.
    apply DecFacts.gt_zero_inv in Hg as [Hnan ->]. split; [exact Hnan|reflexivity].
Qed.

(** X16: with no 6-digit hint, no principal override, an
    ICMS-destination amount that is not above zero and an ST amount
    above zero, the evaluator resolves code 100099 and returns the ST
    amount as the principal. *)
Theorem evaluate_st_without_hint
    (dados_nfe : gmap string (option string)) (receita : option string) (res : Need.t) :
  is_code6 (or_empty receita) = false ->
  Dec.is_nan (_dec (get dados_nfe "valor_vICMSUFDest")) = false ->
  is_positive (_dec (get dados_nfe "valor_vICMSUFDest")) = false ->
  is_positive (_dec (get dados_nfe "valor_vST")) = true ->
  evaluate_gnre_need dados_nfe receita None = Ok res ->
  Need.valor_principal res = Dec.fmt2 (_dec (get dados_nfe "valor_vST"))
  /\ (Need.receita res = Some "100099"
      \/ Need.receita res = None /\ Need.necessario res = "M").
Proof.
  intros Hr Hn Hp Hs H.
  apply evaluate_inv in H as (v & manual & Hv & _ & _ & ->). simpl.
  apply need_values_inv in Hv as (Hres & Hsel & _).
  apply resolve_receita_inv in Hres
    as [[Hc _]|(_ & _ & [[Hp' _]|(_ & _ & [[_ Hr']|[Hs' _]])])]; try congruence.
  rewrite Hr' in *. simpl in Hsel. injection Hsel as <-.
  split; [reflexivity|]. destruct manual; auto.
Qed.

Lemma evaluate_st_without_hint_witness :
  exists res, evaluate_gnre_need nfe_st None None = Ok res
              /\ Need.valor_principal res = "12.30"
              /\ Need.receita res = Some "100099".
Proof.
  assert (Hx : exists res, evaluate_gnre_need nfe_st None None = Ok res)
    by (eexists; vm_compute; reflexivity).
  destruct Hx as [res Hx]. exists res. split; [exact Hx|].
  destruct (evaluate_st_without_hint nfe_st None res eq_refl eq_refl eq_refl eq_refl Hx)
    as [Hp Hc].
  split; [rewrite Hp; reflexivity|].
  destruct Hc as [Hc|[_ Hc]]; [exact Hc|].
  vm_compute in Hx. injection Hx as <-. discriminate Hc.
Defined.

(** X17: a hint of six digits is used as it is, without looking at
    the tax amounts: it is the code returned unless manual handling
    applies, and without an override it selects the principal: the
    ICMS-destination amount for 100102, the ST amount for 100099 and
    100048, and the sum of the two for any other code. *)
Theorem evaluate_hint_verbatim
    (dados_nfe : gmap string (option string)) (hint : string) (res : Need.t) :
  is_code6 hint = true ->
  evaluate_gnre_need dados_nfe (Some hint) None = Ok res ->
  let vST_nfe := _dec (get dados_nfe "valor_vST") in
  let vICMSUF_nfe := _dec (get dados_nfe "valor_vICMSUFDest") in
  (Need.receita res = Some hint \/ Need.receita res = None /\ Need.necessario res = "M")
  /\ (hint = "100102" -> Need.valor_principal res = Dec.fmt2 vICMSUF_nfe)
  /\ (hint = "100099" \/ hint = "100048" -> Need.valor_principal res = Dec.fmt2 vST_nfe)
  /\ (hint <> "100102" -> hint <> "100099" -> hint <> "100048" ->
      exists sum, Dec.add vST_nfe vICMSUF_nfe = Ok sum
                  /\ Need.valor_principal res = Dec.fmt2 sum).
Proof.
  intros Hc H vST_nfe vICMSUF_nfe.
  apply evaluate_inv in H as (v & manual & Hv & _ & _ & ->). simpl.
  apply need_values_inv in Hv as (Hres & Hsel & _).
  fold vST_nfe vICMSUF_nfe in Hres, Hsel.
  unfold resolve_receita in Hres. simpl in Hres. rewrite Hc in Hres. simpl in Hres.
  injection Hres as Hr. rewrite <- Hr in *. clear Hr.
  assert (Ht : Str.truthy hint = true).
  { unfold is_code6, Str.isdigit in Hc. now destruct (Str.truthy hint). }
  rewrite Ht. unfold select_principal in Hsel. repeat split.
  - destruct manual; auto.
  - intros ->. simpl in Hsel. congruence.
  - intros [-> | ->]; simpl in Hsel; congruence.
  - intros H1 H2 H3.
    destruct (String.eqb_spec hint "100102"); [contradiction|].
    destruct (String.eqb_spec hint "100099"); [contradiction|].
    destruct (String.eqb_spec hint "100048"); [contradiction|].
    simpl in Hsel. eauto.
Qed.

Lemma evaluate_hint_verbatim_witness :
  exists res, evaluate_gnre_need nfe_difal (Some "100048") None = Ok res
              /\ Need.receita res = Some "100048"
              /\ Need.valor_principal res = "7.00".
Proof.
  assert (Hx : exists res, evaluate_gnre_need nfe_difal (Some "100048") None = Ok res)
    by (eexists; vm_compute; reflexivity).
  destruct Hx as [res Hx]. exists res. split; [exact Hx|].
  destruct (evaluate_hint_verbatim nfe_difal "100048" res eq_refl Hx) as (Hc & _ & Hp & _).
  split; [|rewrite Hp by auto; reflexivity].
  destruct Hc as [Hc|[_ Hc]]; [exact Hc|].
  vm_compute in Hx. injection Hx as <-. discriminate Hc.
Defined.

(** X18: a principal override is used whatever the revenue
    code is: the returned principal is the override parsed as a decimal
    (zero when it does not parse), and the total is that value plus the
    FCP total. *)
Theorem evaluate_principal_override
    (dados_nfe : gmap string (option string)) (receita : option string)
    (override : string) (res : Need.t) :
  evaluate_gnre_need dados_nfe receita (Some override) = Ok res ->
  Need.valor_principal res = Dec.fmt2 (_dec (Some override))
  /\ exists fcp total,
       Dec.add (_dec (get dados_nfe "valor_vFCPUFDest")) (_dec (get dados_nfe "valor_vFCPST"))
       = Ok fcp
       /\ Dec.add (_dec (Some override)) fcp = Ok total
       /\ Need.valor_fcp res = Dec.fmt2 fcp
       /\ Need.valor_total_item res = Dec.fmt2 total.
Proof.
  intros H. apply evaluate_inv in H as (v & manual & Hv & _ & _ & ->). simpl.
  apply need_values_inv in Hv as (_ & Hsel & Hf & Ht).
  simpl in Hsel. injection Hsel as Hp. rewrite <- Hp in *.
  split; [reflexivity|]. eauto 10.
Qed.

Lemma evaluate_principal_override_witness :
  exists res, evaluate_gnre_need nfe_difal None (Some "abc") = Ok res
              /\ Need.valor_principal res = "0.00".
Proof.
  assert (Hx : exists res, evaluate_gnre_need nfe_difal None (Some "abc") = Ok res)
    by (eexists; vm_compute; reflexivity).
  destruct Hx as [res Hx]. exists res. split; [exact Hx|].
  destruct (evaluate_principal_override _ _ _ _ Hx) as [Hp _]. rewrite Hp. reflexivity.
Defined.

(** X19: the status returned is M, S or N: N exactly when the
    total is not above zero, S when it is and no manual handling
    applies; the code returned is null exactly when manual handling
    applies or no code was resolved. *)
Theorem evaluate_status
    (dados_nfe : gmap string (option string)) (receita valor_principal : option string)
    (res : Need.t) :
  evaluate_gnre_need dados_nfe receita valor_principal = Ok res ->
  exists v,
    need_values_of dados_nfe receita valor_principal = Ok v
    /\ Need.valor_total_item res = Dec.fmt2 (nv_v_total_item v)
    /\ In (Need.necessario res) ["M"; "S"; "N"]
    /\ (Need.necessario res = "N" <-> is_positive (nv_v_total_item v) = false)
    /\ (Need.necessario res <> "N" -> is_positive (nv_v_total_item v) = true)
    /\ (Need.receita res = None <-> Need.necessario res = "M" \/ nv_r v = "").
Proof.
  intros H. apply evaluate_inv in H as (v & manual & Hv & Hm & _ & ->). simpl.
  exists v. split; [exact Hv|]. split; [reflexivity|].
  assert (Hpos : manual = true -> is_positive (nv_v_total_item v) = true).
  { intros ->. now apply manual_of_spec in Hm as [(_ & _ & _ & Hp) _]. }
  assert (Ht : Str.truthy (nv_r v) = false <-> nv_r v = "").
  { destruct (nv_r v); simpl; split; (reflexivity || discriminate). }
  destruct manual; simpl.
  - rewrite Hpos by reflexivity. repeat split; auto; try discriminate.
  - destruct (is_positive (nv_v_total_item v)), (Str.truthy (nv_r v)) eqn:Hr;
      repeat split; auto; try discriminate; try tauto;
      try (intros _; now apply Ht);
      try (intros [Hx|Hx]; [discriminate Hx|apply Ht in Hx; discriminate Hx]).
Qed.

Lemma evaluate_status_witness :
  exists res, evaluate_gnre_need nfe_difal None None = Ok res /\ Need.necessario res = "S".
Proof.
  assert (Hx : exists res, evaluate_gnre_need nfe_difal None None = Ok res)
    by (eexists; vm_compute; reflexivity).
  destruct Hx as [res Hx]. exists res. split; [exact Hx|].
  destruct (evaluate_status _ _ _ _ Hx) as (v & Hv & _ & Hin & Hn & _).
  vm_compute in Hv. injection Hv as <-.
  destruct Hin as [Hm|[Hs|[Hn'|[]]]]; [|symmetry; exact Hs|].
  - vm_compute in Hx. injection Hx as <-. discriminate Hm.
  - symmetry in Hn'. apply Hn in Hn'. discriminate Hn'.
Defined.

(** X20: the evaluator validates nothing: it never raises a
    ValueError; it fails only with a decimal signal, and returns exactly
    when the values can be computed and the total is not a NaN. *)
Theorem evaluate_raises_only_signals
    (dados_nfe : gmap string (option string)) (receita valor_principal : option string) :
  (forall e, evaluate_gnre_need dados_nfe receita valor_principal = Raise e ->
             e = InvalidOperation \/ e = Overflow)
  /\ ((exists res, evaluate_gnre_need dados_nfe receita valor_principal = Ok res)
      <-> exists v, need_values_of dados_nfe receita valor_principal = Ok v
                    /\ Dec.is_nan (nv_v_total_item v) = false).
Proof.
  split.
  - intros e. unfold evaluate_gnre_need, need_values_of, resolve_receita, select_principal,
      manual_of.
    repeat match goal with
      | |- context [Dec.gt ?a ?b] =>
          let H := fresh "Hg" in
          destruct (Dec.gt a b) eqn:H;
          [|apply DecFacts.compare_raises in H as ->]
      | |- context [Dec.add ?a ?b] =>
          let H := fresh "Ha" in
          destruct (Dec.add a b) eqn:H;
          [|apply DecFacts.add_raises in H]
      | |- context [if ?b then _ else _] => destruct b
      | |- context [match ?o with Some _ => _ | None => _ end] => destruct o
      | _ => progress simpl
      end;
      intros H; try discriminate H; injection H as <-; auto.
  - split.
    + intros [res H]. apply evaluate_inv in H as (v & manual & Hv & _ & Hn & _). eauto.
    + intros (v & Hv & Hn). unfold evaluate_gnre_need. rewrite Hv. simpl.
      unfold manual_of. rewrite (DecFacts.gt_zero _ Hn).
      destruct (_ && _ && _); simpl; destruct (is_positive _); simpl; eauto.
Qed.

(** * The evaluator and the builder *)

Lemma fix_not_nan (s : bool) (c e : Z) (d : Decimal) :
  Dec.fix_ s c e = Ok d -> Dec.is_nan d = false.
Proof.
  unfold Dec.fix_.
  repeat match goal with
    | |- context [if ?b then _ else _] => destruct b
    | |- context [let '(_, _) := ?p in _] => destruct p
    end; intros H; try discriminate H; injection H as <-; reflexivity.
Qed.

(** the sum of two values that are not NaN is not a NaN *)
Lemma add_not_nan (a b d : Decimal) :
  Dec.add a b = Ok d -> Dec.is_nan a = false -> Dec.is_nan b = false ->
  Dec.is_nan d = false.
Proof.
  destruct a as [s1 c1 e1|s1|g1 s1 p1], b as [s2 c2 e2|s2|g2 s2 p2]; simpl;
    try discriminate;
    repeat match goal with
      | |- context [if ?b then _ else _] => destruct b
      | |- context [let '(_, _) := ?p in _] => destruct p
      | |- Dec.fix_ _ _ _ = _ -> _ => intros H _ _; now apply fix_not_nan in H
      end; intros H _ _; try discriminate H; injection H as <-; reflexivity.
Qed.

(** the builder infers the revenue code as the evaluator does *)
Lemma lote_receita_resolve (receita : string) (vICMSUF_nfe vST_nfe : Decimal) (r : string) :
  lote_receita receita vICMSUF_nfe vST_nfe = Ok r ->
  resolve_receita (Some receita) vICMSUF_nfe vST_nfe = Ok r.
Proof.
  unfold lote_receita, resolve_receita. simpl. rewrite code6_test_receita.
  destruct (is_code6 receita); simpl; [trivial|].
  destruct (Dec.gt vICMSUF_nfe Dec.zero) as [difal|]; simpl; [|trivial].
  destruct difal; [trivial|].
  destruct (Dec.gt vST_nfe Dec.zero) as [st|]; simpl; [|trivial].
  destruct st; [trivial|discriminate].
Qed.

(** X21: the builder derives its values as the evaluator does:
    whenever a guide is built, the evaluator returns on the same
    invoice, revenue code and principal override, and the principal,
    the total and (unless manual handling withholds it) the revenue code
    it returns are those written in the guide. *)
Theorem lote_agrees_with_evaluator
    (fromisoformat : string -> option date) (today : date)
    (dados_nfe : gmap string (option string)) (uf_favorecida : option string)
    (receita : string) (o : lote_options) (lote : Element) :
  build_lote_tree fromisoformat today dados_nfe uf_favorecida receita o = Ok lote ->
  exists res,
    evaluate_gnre_need dados_nfe (Some receita) (valor_principal o) = Ok res
    /\ findall (is_valor "11") lote
       = [ET.leaf "valor" [("tipo", "11")] (Some (Need.valor_principal res))]
    /\ findall (is_valor "21") lote
       = [ET.leaf "valor" [("tipo", "21")] (Some (Need.valor_total_item res))]
    /\ findall (has_tag "valorGNRE") lote
       = [ET.leaf "valorGNRE" [] (Some (Need.valor_total_item res))]
    /\ (Need.necessario res <> "M" ->
        findall (has_tag "receita") lote = [ET.leaf "receita" [] (Need.receita res)]).
Proof.
  intros H. apply Guide.built in H as (v & total & Hv & Hnp & _ & Hnf & Ht & ->).
  destruct (lote_value_entries fromisoformat today dados_nfe o v total)
    as (H11 & H21 & Hg & Hr).
  rewrite H11, H21, Hg, Hr. clear H11 H21 Hg Hr.
  rewrite lote_values_steps in Hv.
  destruct (negb (Str.truthy _)); [discriminate|].
  destruct (lote_receita _ _ _) as [r|] eqn:Hrec; [|discriminate].
  destruct (negb (ident_ok _)); [discriminate|].
  destruct (negb (chave_ok _)); [discriminate|].
  apply bind_Ok in Hv as (td & Htd & Hv). apply bind_Ok in Hv as (fcp & Hfcp & Hv).
  injection Hv as <-. simpl in *.
  assert (Hsel : select_principal r (valor_principal o) (_dec (get dados_nfe "valor_vST"))
                   (_dec (get dados_nfe "valor_vICMSUFDest"))
                 = Ok (lote_principal r (valor_principal o)
                         (_dec (get dados_nfe "valor_vST"))
                         (_dec (get dados_nfe "valor_vICMSUFDest")) td)).
  { unfold select_principal, lote_principal.
    destruct (valor_principal o); [reflexivity|].
    destruct (String.eqb r "100102"); [reflexivity|].
    destruct (String.eqb r "100099"); [reflexivity|].
    destruct (String.eqb r "100048"); [reflexivity|exact Htd]. }
  pose proof (add_not_nan _ _ _ Ht Hnp Hnf) as Hnt.
  pose proof (lote_receita_Ok_code6 _ _ _ _ Hrec) as H6.
  assert (Htr : Str.truthy r = true).
  { unfold is_code6, Str.isdigit in H6. now destruct (Str.truthy r). }
  unfold evaluate_gnre_need, need_values_of.
  rewrite (lote_receita_resolve _ _ _ _ Hrec). simpl.
  rewrite Hsel. simpl. rewrite Hfcp. simpl. rewrite Ht. simpl.
  unfold manual_of. rewrite (DecFacts.gt_zero _ Hnt).
  destruct (_ && _ && _); simpl; destruct (is_positive total); simpl;
    eexists; (split; [reflexivity|]); simpl; rewrite ?Htr;
    repeat split; try reflexivity; intros Hm; try reflexivity; now contradiction Hm.
Qed.

Lemma lote_agrees_with_evaluator_witness :
  exists lote res,
    build_lote_tree fromisoformat_none (Date 2024 1 15) nfe_st_fcp (Some "SP") ""
      default_options = Ok lote
    /\ evaluate_gnre_need nfe_st_fcp (Some "") None = Ok res
    /\ findall (is_valor "21") lote
       = [ET.leaf "valor" [("tipo", "21")] (Some (Need.valor_total_item res))].
Proof.
  assert (Hx : exists lote,
             build_lote_tree fromisoformat_none (Date 2024 1 15) nfe_st_fcp (Some "SP") ""
               default_options = Ok lote)
    by (eexists; vm_compute; reflexivity).
  destruct Hx as [lote Hx]. exists lote.
  destruct (lote_agrees_with_evaluator _ _ _ _ _ _ _ Hx) as (res & He & _ & H21 & _).
  exists res. split; [exact Hx|]. split; [exact He | exact H21].
Defined.

(** * The query builders *)

Lemma tipo_consulta_in (tipo_consulta : string) :
  existsb (String.eqb tipo_consulta) tipos_consulta = true <-> In tipo_consulta tipos_consulta.
Proof.
  rewrite existsb_exists. split.
  - intros (x & Hin & Heq). apply String.eqb_eq in Heq. now subst.
  - intros Hin. exists tipo_consulta. split; [exact Hin|apply String.eqb_refl].
Qed.

(** X22: the query-batch builder fails exactly on an
    empty state, with its first ValidationError, and then on a query
    type outside C, N, D, CD, ND, CR, NR; otherwise it returns a
    document.  The state is not trimmed: a blank state passes. *)
Theorem lote_consulta_validation
    (uf tipo_consulta : string)
    (doc_origem doc_tipo cod_barras num_controle : option string)
    (emitente_cnpj emitente_cpf emitente_ie : option string) :
  let build := build_lote_consulta_xml uf tipo_consulta doc_origem doc_tipo cod_barras
                 num_controle emitente_cnpj emitente_cpf emitente_ie in
  (uf = "" -> build = Raise (ValueError "uf obrigatória"))
  /\ (uf <> "" -> ~ In tipo_consulta tipos_consulta ->
      build = Raise (ValueError "tipoConsulta inválido"))
  /\ (uf <> "" -> In tipo_consulta tipos_consulta ->
      exists lote,
        lote_consulta_tree uf tipo_consulta doc_origem doc_tipo cod_barras num_controle
          emitente_cnpj emitente_cpf emitente_ie = Ok lote
        /\ build = Ok (ET.tostring lote)).
Proof.
  intros build. unfold build, build_lote_consulta_xml, lote_consulta_tree. repeat split.
  - intros ->. reflexivity.
  - intros Huf Hin. apply StrFacts.truthy_iff in Huf.
    assert (He : existsb (String.eqb tipo_consulta) tipos_consulta = false).
    { destruct (existsb _ _) eqn:E; [|reflexivity].
      apply tipo_consulta_in in E. contradiction. }
    rewrite Huf, He. reflexivity.
  - intros Huf Hin. apply StrFacts.truthy_iff in Huf.
    apply tipo_consulta_in in Hin. rewrite Huf, Hin. simpl. eauto.
Qed.

Lemma lote_consulta_validation_witness :
  build_lote_consulta_xml "SP" "X" None None None None None None None
  = Raise (ValueError "tipoConsulta inválido").
Proof.
  refine (proj1 (proj2 (lote_consulta_validation "SP" "X" None None None None None None
                          None)) _ _).
  - discriminate.
  - simpl. intuition discriminate.
Defined.

(** X23: a query document carries the state and the query
    type as given; the emitter block is present when a CNPJ, a CPF or
    an IE is given and holds each of them that is given (a CNPJ and a
    CPF together, unlike the submission guide); the origin document is
    present only when both its number and its type are given. *)
Theorem lote_consulta_elements
    (uf tipo_consulta : string)
    (doc_origem doc_tipo cod_barras num_controle : option string)
    (emitente_cnpj emitente_cpf emitente_ie : option string) (lote : Element) :
  lote_consulta_tree uf tipo_consulta doc_origem doc_tipo cod_barras num_controle
    emitente_cnpj emitente_cpf emitente_ie = Ok lote ->
  findall (has_tag "uf") lote = [ET.leaf "uf" [] (Some uf)]
  /\ findall (has_tag "tipoConsulta") lote = [ET.leaf "tipoConsulta" [] (Some tipo_consulta)]
  /\ findall (has_tag "emitenteId") lote
     = (if truthy emitente_cnpj || truthy emitente_cpf || truthy emitente_ie
        then [ET.node "emitenteId" []
                (given emitente_cnpj "CNPJ" ++ given emitente_cpf "CPF"
                 ++ given emitente_ie "IE")%list]
        else [])
  /\ findall (has_tag2 "CNPJ" "CPF") lote
     = (given emitente_cnpj "CNPJ" ++ given emitente_cpf "CPF")%list
  /\ findall (has_tag "docOrigem") lote
     = (if truthy doc_origem && truthy doc_tipo
        then [ET.leaf "docOrigem" [("tipo", or_empty doc_tipo)] doc_origem]
        else [])
  /\ findall (has_tag "codBarras") lote = given cod_barras "codBarras"
  /\ findall (has_tag "numControle") lote = given num_controle "numControle".
Proof.
  unfold lote_consulta_tree. intros H. inv_bind H. injection H as <-.
  repeat split.
  - unfold has_tag. Guide.select_by_head. reflexivity.
  - unfold has_tag. Guide.select_by_head. reflexivity.
  - unfold has_tag. Guide.select_by_head.
    destruct (truthy emitente_cnpj || truthy emitente_cpf || truthy emitente_ie);
      reflexivity.
  - unfold has_tag2. Guide.select_by_head.
    destruct (truthy emitente_cnpj) eqn:Hc, (truthy emitente_cpf) eqn:Hp,
      (truthy emitente_ie) eqn:Hi; simpl; unfold given; rewrite ?Hc, ?Hp; reflexivity.
  - unfold has_tag. Guide.select_by_head.
    destruct (truthy doc_origem && truthy doc_tipo); reflexivity.
  - unfold has_tag. Guide.select_by_head. unfold given.
    destruct (truthy cod_barras); reflexivity.
  - unfold has_tag. Guide.select_by_head. unfold given.
    destruct (truthy num_controle); reflexivity.
Qed.

Lemma lote_consulta_elements_witness :
  exists lote,
    lote_consulta_tree "SP" "C" (Some "123") None None None (Some "12345678000199")
      (Some "12345678901") None = Ok lote
    /\ findall (has_tag2 "CNPJ" "CPF") lote
       = [ET.leaf "CNPJ" [] (Some "12345678000199"); ET.leaf "CPF" [] (Some "12345678901")]
    /\ findall (has_tag "docOrigem") lote = [].
Proof.
  eexists. split; [reflexivity|].
  destruct (lote_consulta_elements "SP" "C" (Some "123") None None None
              (Some "12345678000199") (Some "12345678901") None _ eq_refl)
    as (_ & _ & _ & Hid & Hdoc & _).
  split; [exact Hid | exact Hdoc].
Defined.

(** X24: the configuration query is not validated: it always
    returns, with the environment and the state as given, even when
    empty; the revenue code is written when it is not empty, and the
    tiposGnre element only for the values S and N. *)
Theorem consulta_config_uf_elements
    (ambiente uf : string) (receita tipos_gnre : option string) :
  let cons := consulta_config_uf_tree ambiente uf receita tipos_gnre in
  build_consulta_config_uf_xml ambiente uf receita tipos_gnre = Ok (ET.tostring cons)
  /\ findall (has_tag "ambiente") cons = [ET.leaf "ambiente" [] (Some ambiente)]
  /\ findall (has_tag "uf") cons = [ET.leaf "uf" [] (Some uf)]
  /\ findall (has_tag "receita") cons
     = (if truthy receita then [ET.leaf "receita" [] receita] else [])
  /\ (tipos_gnre = Some "S" \/ tipos_gnre = Some "N" ->
      findall (has_tag "tiposGnre") cons = [ET.leaf "tiposGnre" [] tipos_gnre])
  /\ (tipos_gnre <> Some "S" -> tipos_gnre <> Some "N" ->
      findall (has_tag "tiposGnre") cons = []).
Proof.
  intros cons. subst cons. unfold consulta_config_uf_tree.
  split; [reflexivity|].
  assert (Hsel : forall body,
             findall (has_tag "tiposGnre")
               (Elem (ET.ns "TConsultaConfigUf") [] None
                  ([ET.leaf "ambiente" [] (Some ambiente); ET.leaf "uf" [] (Some uf)]
                   ++ given receita "receita" ++ body)%list)
             = findall_list (has_tag "tiposGnre") body).
  { intros body. unfold has_tag. rewrite Find.elem. Guide.select_by_head. reflexivity. }
  repeat split.
  - unfold has_tag. rewrite Find.elem. Guide.select_by_head. reflexivity.
  - unfold has_tag. rewrite Find.elem. Guide.select_by_head. reflexivity.
  - unfold has_tag. rewrite Find.elem. Guide.select_by_head. reflexivity.
  - intros [-> | ->]; rewrite Hsel; reflexivity.
  - intros HS HN. rewrite Hsel.
    rewrite (bool_decide_eq_false_2 _ HS), (bool_decide_eq_false_2 _ HN). reflexivity.
Qed.

(** * Digits and municipality codes *)

Lemma length_filter (p : ascii -> bool) (s : string) :
  (String.length (Str.filter p s) <= String.length s)%nat.
Proof.
  induction s as [|c r IH]; simpl; [lia|]. destruct (p c); simpl; lia.
Qed.

Lemma length_substring (s : string) (n m : nat) :
  (n + m <= String.length s)%nat -> String.length (substring n m s) = m.
Proof.
  revert n m. induction s as [|c r IH]; intros n m H; simpl in H.
  - assert (n = 0%nat) by lia. assert (m = 0%nat) by lia. subst. reflexivity.
  - destruct n as [|n]; simpl.
    + destruct m as [|m]; [reflexivity|]. simpl. f_equal. apply IH. simpl. lia.
    + apply IH. lia.
Qed.

Lemma all_substring (p : ascii -> bool) (s : string) (n m : nat) :
  Str.all p s = true -> Str.all p (substring n m s) = true.
Proof.
  revert n m. induction s as [|c r IH]; intros n m H.
  - destruct n, m; reflexivity.
  - simpl in H. apply andb_true_iff in H as [Hc Hr].
    destruct n as [|n]; simpl.
    + destruct m as [|m]; [reflexivity|]. simpl. rewrite Hc. now apply IH.
    + now apply IH.
Qed.

(** X25: [_digits] keeps the digits of a string and nothing
    else: its result holds only digits, is no longer than the string,
    is left unchanged by a second pass, and a string of digits is
    returned as it is; an absent string gives the empty string. *)
Theorem digits_keeps_digits (s : option string) :
  digits_only (_digits s) = true
  /\ Str.len (_digits s) <= Str.len (or_empty s)
  /\ _digits (Some (_digits s)) = _digits s
  /\ (digits_only (or_empty s) = true -> _digits s = or_empty s)
  /\ _digits None = "".
Proof.
  unfold digits_only, _digits, digits_of. repeat split.
  - apply all_filter.
  - unfold Str.len. pose proof (length_filter Str.chr_isdigit (or_empty s)). lia.
  - simpl. apply StrFacts.filter_all, all_filter.
  - apply StrFacts.filter_all.
Qed.

(** X26: a municipality code that [_mun5] returns is always five
    digits, the last five of the digits of the field, and is left
    unchanged by a second normalization; nothing is returned exactly
    when the field holds fewer than five digits. *)
Theorem mun5_five_digits (cmun : option string) :
  (forall m, _mun5 cmun = Some m ->
             Str.len m = 5 /\ digits_only m = true
             /\ m = Str.last 5 (_digits cmun)
             /\ _mun5 (Some m) = Some m)
  /\ (_mun5 cmun = None <-> Str.len (_digits cmun) < 5).
Proof.
  assert (Hlast : forall s, 5 <= Str.len s -> Str.len (Str.last 5 s) = 5).
  { intros s Hs. unfold Str.len, Str.last in *. rewrite length_substring; lia. }
  assert (Hfix : forall m, Str.len m = 5 -> digits_only m = true -> _mun5 (Some m) = Some m).
  { intros m Hl Hd. unfold _mun5.
    assert (Ht : truthy (Some m) = true) by (destruct m; [discriminate Hl|reflexivity]).
    rewrite Ht. simpl. unfold _digits. simpl.
    unfold digits_of. rewrite (StrFacts.filter_all _ _ Hd), Hl. reflexivity. }
  assert (Hempty : truthy cmun = false -> Str.len (_digits cmun) = 0).
  { destruct cmun as [[|c r]|]; simpl; intros H; (reflexivity || discriminate). }
  assert (Hdig : digits_only (_digits cmun) = true) by apply all_filter.
  assert (Hmain : (forall m, _mun5 cmun = Some m ->
                             Str.len m = 5 /\ digits_only m = true
                             /\ m = Str.last 5 (_digits cmun))
                  /\ (_mun5 cmun = None <-> Str.len (_digits cmun) < 5));
    [|destruct Hmain as [H1 H2]; split; [|exact H2];
      intros m Hm; destruct (H1 m Hm) as (Hl & Hd & Hm'); auto].
  clear Hfix.
  unfold _mun5. destruct (truthy cmun) eqn:Ht; simpl.
  - destruct (Z.eqb_spec (Str.len (_digits cmun)) 7) as [H7|H7].
    + split; [|split; [discriminate|lia]].
      intros m Hm. injection Hm as <-.
      assert (Heq : Str.slice 2 7 (_digits cmun) = Str.last 5 (_digits cmun)).
      { unfold Str.slice, Str.last, Str.len in *.
        replace (String.length (_digits cmun)) with 7%nat by lia. reflexivity. }
      rewrite Heq.
      assert (Hl : Str.len (Str.last 5 (_digits cmun)) = 5) by (apply Hlast; lia).
      assert (Hd : digits_only (Str.last 5 (_digits cmun)) = true)
        by (apply all_substring, Hdig).
      repeat split; auto.
    + destruct (Z.eqb_spec (Str.len (_digits cmun)) 5) as [H5|H5].
      * split; [|split; [discriminate|lia]].
        intros m Hm. injection Hm as <-. repeat split; auto.
        unfold Str.last, Str.len in *.
        replace (String.length (_digits cmun)) with 5%nat by lia. simpl.
        clear -H5. remember (_digits cmun) as s. clear Heqs.
        do 5 (destruct s as [|? s]; [discriminate H5|]). destruct s; [reflexivity|].
        simpl in H5. lia.
      * destruct (Z.gtb_spec (Str.len (_digits cmun)) 5) as [Hg|Hg].
        -- split; [|split; [discriminate|lia]].
           intros m Hm. injection Hm as <-.
           assert (Hl : Str.len (Str.last 5 (_digits cmun)) = 5) by (apply Hlast; lia).
           assert (Hd : digits_only (Str.last 5 (_digits cmun)) = true)
             by (apply all_substring, Hdig).
           repeat split; auto.
        -- split; [discriminate|]. split; [lia|reflexivity].
  - split; [discriminate|]. rewrite (Hempty eq_refl). split; [lia|reflexivity].
Qed.

(** * Formats *)

Lemma all_digits_uint (d : Decimal.uint) :
  Str.all Str.chr_isdigit (NilEmpty.string_of_uint d) = true.
Proof. induction d; simpl; auto. Qed.

Lemma isdigit_of_N (n : N) : Str.isdigit (Str.of_N n) = true.
Proof.
  unfold Str.of_N, NilZero.string_of_uint.
  destruct (N.to_uint n) eqn:E; try reflexivity;
    unfold Str.isdigit; rewrite <- E at 1; rewrite all_digits_uint;
    rewrite E; reflexivity.
Qed.

Lemma two_digits (z : Z) :
  0 <= z < 100 ->
  String.length (Str.zfill 2 (Str.of_Z z)) = 2%nat
  /\ digits_only (Str.zfill 2 (Str.of_Z z)) = true.
Proof.
  intros Hz.
  assert (Hall : forallb (fun n => (String.length (Str.zfill 2 (Str.of_Z (Z.of_nat n))) =? 2)%nat
                                   && digits_only (Str.zfill 2 (Str.of_Z (Z.of_nat n))))
                   (seq 0 100) = true) by (vm_compute; reflexivity).
  rewrite forallb_forall in Hall.
  specialize (Hall (Z.to_nat z)). rewrite Z2Nat.id in Hall by lia.
  assert (Hin : In (Z.to_nat z) (seq 0 100)) by (apply in_seq; lia).
  apply Hall in Hin. apply andb_true_iff in Hin as [Hl Hd].
  apply Nat.eqb_eq in Hl. auto.
Qed.

(** a finite value is always written with two fraction digits *)
Lemma fmt2_two_decimals (d : Decimal) : is_finite d = true -> two_decimals (Dec.fmt2 d).
Proof.
  destruct d as [s c e| |]; try discriminate. intros _.
  unfold Dec.fmt2, two_decimals.
  exists (Dec.sign_str s), (Str.of_Z (Dec.rescale2 c e / 100)),
    (Str.zfill 2 (Str.of_Z (Dec.rescale2 c e mod 100))).
  split; [reflexivity|]. split; [destruct s; auto|]. split; [apply isdigit_of_N|].
  apply two_digits. apply Z.mod_pos_bound. lia.
Qed.

Lemma fix_finite (s : bool) (c e : Z) (d : Decimal) :
  Dec.fix_ s c e = Ok d -> is_finite d = true.
Proof.
  unfold Dec.fix_.
  repeat match goal with
    | |- context [if ?b then _ else _] => destruct b
    | |- context [let '(_, _) := ?p in _] => destruct p
    end; intros H; try discriminate H; injection H as <-; reflexivity.
Qed.

(** the sum of two finite values is finite *)
Lemma add_finite (a b d : Decimal) :
  Dec.add a b = Ok d -> is_finite a = true -> is_finite b = true -> is_finite d = true.
Proof.
  destruct a as [s1 c1 e1| |], b as [s2 c2 e2| |]; try discriminate. simpl.
  repeat match goal with
    | |- context [if ?b then _ else _] => destruct b
    | |- context [let '(_, _) := ?p in _] => destruct p
    | |- Dec.fix_ _ _ _ = _ -> _ => intros H _ _; now apply fix_finite in H
    end.
Qed.

(** X27: when the four tax amounts of the invoice and the
    principal override are finite (no field spells an infinity or a
    NaN), the three amounts that the evaluator returns are written with
    exactly two fraction digits. *)
Theorem evaluate_two_decimals
    (dados_nfe : gmap string (option string)) (receita valor_principal : option string)
    (res : Need.t) :
  is_finite (_dec (get dados_nfe "valor_vST")) = true ->
  is_finite (_dec (get dados_nfe "valor_vICMSUFDest")) = true ->
  is_finite (_dec (get dados_nfe "valor_vFCPUFDest")) = true ->
  is_finite (_dec (get dados_nfe "valor_vFCPST")) = true ->
  is_finite (_dec valor_principal) = true ->
  evaluate_gnre_need dados_nfe receita valor_principal = Ok res ->
  two_decimals (Need.valor_principal res)
  /\ two_decimals (Need.valor_fcp res)
  /\ two_decimals (Need.valor_total_item res).
Proof.
  intros Hst Hicms Hfu Hfs Hvp H.
  apply evaluate_inv in H as (v & manual & Hv & _ & _ & ->). simpl.
  apply need_values_inv in Hv as (_ & Hsel & Hf & Ht).
  assert (Hp : is_finite (nv_vprincipal v) = true).
  { unfold select_principal in Hsel. destruct valor_principal as [x|].
    - injection Hsel as <-. exact Hvp.
    - destruct (String.eqb _ "100102"); [injection Hsel as <-; exact Hicms|].
      destruct (_ || _); [injection Hsel as <-; exact Hst|].
      eapply add_finite; eauto. }
  pose proof (add_finite _ _ _ Hf Hfu Hfs) as Hfcp.
  pose proof (add_finite _ _ _ Ht Hp Hfcp) as Htot.
  auto using fmt2_two_decimals.
Qed.

Lemma evaluate_two_decimals_witness :
  exists res, evaluate_gnre_need nfe_difal None None = Ok res
              /\ two_decimals (Need.valor_total_item res).
Proof.
  assert (Hx : exists res, evaluate_gnre_need nfe_difal None None = Ok res)
    by (eexists; vm_compute; reflexivity).
  destruct Hx as [res Hx]. exists res. split; [exact Hx|].
  destruct (evaluate_two_decimals nfe_difal None None res eq_refl eq_refl eq_refl eq_refl
              eq_refl Hx) as (_ & _ & H).
  exact H.
Defined.

(** X28: the evaluator reads six fields of the invoice and nothing
    else, the two state codes only up to surrounding blanks and letter
    case: two invoices that agree on these give the same result. *)
Theorem evaluate_reads_six_fields
    (dados1 dados2 : gmap string (option string)) (receita valor_principal : option string) :
  uf_dest_of dados1 = uf_dest_of dados2 ->
  uf_emit_of dados1 = uf_emit_of dados2 ->
  _dec (get dados1 "valor_vST") = _dec (get dados2 "valor_vST") ->
  _dec (get dados1 "valor_vICMSUFDest") = _dec (get dados2 "valor_vICMSUFDest") ->
  _dec (get dados1 "valor_vFCPUFDest") = _dec (get dados2 "valor_vFCPUFDest") ->
  _dec (get dados1 "valor_vFCPST") = _dec (get dados2 "valor_vFCPST") ->
  evaluate_gnre_need dados1 receita valor_principal
  = evaluate_gnre_need dados2 receita valor_principal.
Proof.
  intros Hd He Hst Hi Hfu Hfs. unfold evaluate_gnre_need, need_values_of.
  rewrite Hd, He, Hst, Hi, Hfu, Hfs. reflexivity.
Qed.

Lemma evaluate_reads_six_fields_witness :
  evaluate_gnre_need nfe_rj_sp None None
  = evaluate_gnre_need
      (<["uf_destinatario" := Some "SP"]>
         (<["uf_emitente" := Some "rj "]>
            (<["valor_vST" := Some " 100.00"]> (<["emitente_nome" := Some "ACME"]> ∅))))
      None None.
Proof. apply evaluate_reads_six_fields; reflexivity. Defined.

(** X29: each of the four documents opens with its root element,
    which declares the GNRE namespace as the default one; nothing, and
    so no XML declaration, precedes it.  The two batch documents carry
    the version 2.00. *)
Theorem documents_open_with_root
    (fromisoformat : string -> option date) (today : date)
    (dados_nfe : gmap string (option string)) (uf_favorecida : option string)
    (receita : string) (o : lote_options) :
  (forall xml,
      build_lote_xml fromisoformat today dados_nfe uf_favorecida receita o = Ok xml ->
      exists rest, xml = root_open "TLote_GNRE" versao_2 ++ ">" ++ rest)
  /\ (forall uf tipo doc_origem doc_tipo cod_barras num_controle cnpj cpf ie xml,
         build_lote_consulta_xml uf tipo doc_origem doc_tipo cod_barras num_controle
           cnpj cpf ie = Ok xml ->
         exists rest, xml = root_open "TLote_ConsultaGNRE" versao_2 ++ ">" ++ rest)
  /\ (forall ambiente numero_recibo pdf pagamento noticias,
         exists rest,
           build_consulta_resultado_xml ambiente numero_recibo pdf pagamento noticias
           = Ok (root_open "TConsLote_GNRE" "" ++ ">" ++ rest))
  /\ (forall ambiente uf rec tipos,
         exists rest,
           build_consulta_config_uf_xml ambiente uf rec tipos
           = Ok (root_open "TConsultaConfigUf" "" ++ ">" ++ rest)).
Proof.
  repeat split.
  - intros xml H. rewrite Guide.xml_of_tree in H.
    destruct (build_lote_tree _ _ _ _ _ _) as [lote|] eqn:Hl; [|discriminate].
    injection H as <-. apply Guide.built in Hl as (v & total & _ & _ & _ & _ & _ & ->).
    unfold lote_element. cbv zeta. eexists. reflexivity.
  - intros uf tipo doc_origem doc_tipo cod_barras num_controle cnpj cpf ie xml H.
    unfold build_lote_consulta_xml in H. apply bind_Ok in H as (lote & Hl & H).
    injection H as <-. unfold lote_consulta_tree in Hl. inv_bind Hl. injection Hl as <-.
    eexists. reflexivity.
  - intros. eexists. reflexivity.
  - intros. eexists. reflexivity.
Qed.

Lemma documents_open_with_root_witness :
  exists xml rest,
    build_lote_xml fromisoformat_none (Date 2024 1 15) nfe_st_fcp (Some "SP") ""
      default_options = Ok xml
    /\ xml = root_open "TLote_GNRE" versao_2 ++ ">" ++ rest.
Proof.
  assert (Hx : exists xml,
             build_lote_xml fromisoformat_none (Date 2024 1 15) nfe_st_fcp (Some "SP") ""
               default_options = Ok xml)
    by (eexists; vm_compute; reflexivity).
  destruct Hx as [xml Hx]. exists xml.
  destruct (documents_open_with_root fromisoformat_none (Date 2024 1 15) nfe_st_fcp
              (Some "SP") "" default_options) as (H & _).
  destruct (H xml Hx) as [rest Hr]. exists rest. split; [exact Hx | exact Hr].
Defined.
